(** * NBA team-stats dashboard: a shallow embedding of
      [dash_nba_style_evolution.py] and the properties of its pipeline.

    The script fetches one table of team statistics per season from a remote
    provider through an on-disk memoising cache, stamps every table with its
    season, concatenates the tables into the global [combined_df] and serves
    a dashboard whose callbacks derive per-game figures from that table.

    The embedding keeps the shape of the script:
    - Python exceptions are an error type, effects are a state-and-error
      monad over a [world] (object store, globals, standard output, clock,
      cache directory, log of provider requests);
    - a pandas DataFrame is a list of column labels and a list of rows, each
      row an index label with its cells; DataFrames live in an object store
      and are handled through references, so that in-place updates and
      copies are told apart;
    - float64 values are Rocq's primitive binary64 floats. *)

From Stdlib Require Import ZArith List String Ascii Floats Uint63 Lia.
From Stdlib Require Import DecimalString.
From stdpp Require Import gmap strings list.

Local Open Scope string_scope.
Local Open Scope list_scope.
Local Open Scope Z_scope.

(** ** Python values used by the script *)

Module Py.

(** The exceptions the script can meet.  All of them derive from
    [Exception] but [KeyboardInterrupt] and [SystemExit], which derive
    from [BaseException] only and pass through [except Exception]. *)
Inductive exn : Type :=
| KeyError (key : string)
| NameError (name : string)
| TypeError
| ValueError (msg : string)
| ProviderError (msg : string)   (* requests / JSON / nba_api failures *)
| CacheError (msg : string)      (* sqlite3 / OS errors raised by diskcache *)
| IndexError
| KeyboardInterrupt
| SystemExit.

Definition is_Exception (e : exn) : bool :=
  match e with
  | KeyboardInterrupt | SystemExit => false
  | _ => true
  end.

(** [str(e)] as interpolated in the error message of the fetcher. *)
Definition exn_str (e : exn) : string :=
  match e with
  | KeyError k => "'" +:+ k +:+ "'"
  | NameError n => "name '" +:+ n +:+ "' is not defined"
  | TypeError => "unsupported operand type(s)"
  | IndexError => "index out of range"
  | ValueError m | ProviderError m | CacheError m => m
  | KeyboardInterrupt | SystemExit => ""
  end.

Inductive result (A : Type) : Type :=
| Ok (a : A)
| Raise (e : exn).
Arguments Ok {A} a.
Arguments Raise {A} e.

(** [str(n)] for an integer. *)
Definition str_int (z : Z) : string := NilZero.string_of_int (Z.to_int z).

(** [s[n:]] *)
Fixpoint str_drop (n : nat) (s : string) : string :=
  match n, s with
  | O, _ => s
  | S _, EmptyString => EmptyString
  | S n', String _ s' => str_drop n' s'
  end.

(** [s[:n]] *)
Fixpoint str_take (n : nat) (s : string) : string :=
  match n, s with
  | O, _ => EmptyString
  | S _, EmptyString => EmptyString
  | S n', String c s' => String c (str_take n' s')
  end.

(** [int(s)] on a string of decimal digits. *)
Definition int_of_str (s : string) : option Z :=
  option_map Z.of_int (NilZero.int_of_string s).

(** [range(start, stop, step)]; a zero step is a [ValueError] in Python
    and yields the empty range here. *)
Definition range_len (start stop step : Z) : Z :=
  if 0 <? step then Z.max 0 ((stop - start + step - 1) / step)
  else if step <? 0 then Z.max 0 ((start - stop - step - 1) / (- step))
  else 0.

Definition range (start stop step : Z) : list Z :=
  List.map (fun i => start + Z.of_nat i * step)
           (seq 0 (Z.to_nat (range_len start stop step))).

(** [c.lower()] on an ASCII character, [s.lower()] on an ASCII string. *)
Definition ascii_lower (c : ascii) : ascii :=
  let n := nat_of_ascii c in
  if (Nat.leb 65 n && Nat.leb n 90)%bool then ascii_of_nat (n + 32) else c.

Fixpoint lower (s : string) : string :=
  match s with
  | EmptyString => EmptyString
  | String c s' => String (ascii_lower c) (lower s')
  end.

End Py.
Export Py.

(** ** Season identifiers (lines 44-48 of the script) *)

(** [f"{year}-{str(year+1)[2:]}"] *)
Definition season_of_year (year : Z) : string :=
  str_int year +:+ "-" +:+ str_drop 2 (str_int (year + 1)).

(** [for year in range(2024, 1989, -1): seasons.append(season)] *)
Definition seasons_between (start_year stop : Z) : list string :=
  List.map season_of_year (Py.range start_year stop (-1)).

Definition seasons : list string := seasons_between 2024 1989.

(** The format the identifiers are meant to have, written from the
    description "YYYY-YY": four decimal digits of the year, a dash, and the
    two decimal digits of [(year + 1) mod 100]. *)
Definition digit (d : Z) : string :=
  String (ascii_of_nat (48 + Z.to_nat (d mod 10))) EmptyString.

Definition yyyy_yy (year : Z) : string :=
  digit (year / 1000) +:+ digit (year / 100) +:+ digit (year / 10)
  +:+ digit year +:+ "-"
  +:+ digit (((year + 1) mod 100) / 10) +:+ digit ((year + 1) mod 100).

(** The year an identifier starts with: [int(s[:4])]. *)
Definition season_year (s : string) : option Z := int_of_str (str_take 4 s).

(** Strictly descending lists of integers. *)
Fixpoint strictly_descending (l : list Z) : bool :=
  match l with
  | [] => true
  | x :: l' =>
      match l' with
      | [] => true
      | y :: _ => (y <? x) && strictly_descending l'
      end
  end.

(** ** pandas: cells, series and data frames *)

Module Pandas.

(** A cell holds an int64, a float64 or a Python string (object dtype).
    A missing value is the float NaN. *)
Inductive cell : Type :=
| CInt (z : Z)
| CFloat (f : float)
| CStr (s : string).

Definition NaN : cell := CFloat nan.

(** A row is its index label and its cells, one per column label, in
    the order of [columns].  A cell missing at the end of a row reads as
    NaN. *)
Record DataFrame : Type := mkDF {
  columns : list string;
  rows : list (Z * list cell)
}.

(** A column taken out of a frame: the values with their index labels. *)
Definition Series : Type := list (Z * cell).

(** [pd.DataFrame()] *)
Definition empty_frame : DataFrame := mkDF [] [].

Definition nrows (df : DataFrame) : nat := length (rows df).
Definition index (df : DataFrame) : list Z := List.map fst (rows df).
Definition s_index (s : Series) : list Z := List.map fst s.
Definition s_values (s : Series) : list cell := List.map snd s.

(** [df.empty]: some axis has length zero. *)
Definition df_empty (df : DataFrame) : bool :=
  Nat.eqb (length (columns df)) 0 || Nat.eqb (nrows df) 0.

(** Position of the first column labelled [c]. *)
Fixpoint col_pos (c : string) (cols : list string) : option nat :=
  match cols with
  | [] => None
  | c' :: cols' =>
      if String.eqb c c' then Some O else option_map S (col_pos c cols')
  end.

Definition cell_at (p : nat) (r : list cell) : cell := default NaN (r !! p).

(** Writing the cell at position [p] of a row. *)
Fixpoint put_cell (p : nat) (v : cell) (r : list cell) : list cell :=
  match p, r with
  | O, [] => [v]
  | O, _ :: r' => v :: r'
  | S p', [] => NaN :: put_cell p' v []
  | S p', x :: r' => x :: put_cell p' v r'
  end.

(** The column at position [p] of a list of rows. *)
Definition col_of (p : nat) (rs : list (Z * list cell)) : Series :=
  List.map (fun r => (r.1, cell_at p r.2)) rs.

(** [df[c]]; an unknown label is a [KeyError]. *)
Definition getitem (df : DataFrame) (c : string) : result Series :=
  match col_pos c (columns df) with
  | Some p => Ok (col_of p (rows df))
  | None => Raise (KeyError c)
  end.

(** The frame after [df[c] = v] for a scalar [v]: the column is
    overwritten when it exists and appended otherwise. *)
Definition setitem_scalar (df : DataFrame) (c : string) (v : cell)
  : DataFrame :=
  match col_pos c (columns df) with
  | Some p =>
      mkDF (columns df) (List.map (fun r => (r.1, put_cell p v r.2)) (rows df))
  | None =>
      mkDF (columns df ++ [c])
           (List.map (fun r => (r.1, put_cell (length (columns df)) v r.2))
                     (rows df))
  end.

(** The frame after [df.loc[:, c] = s] where [s] carries the index of
    [df] itself, as every series computed from columns of [df] does:
    pandas then pairs rows and values by position. *)
Fixpoint put_column (p : nat) (vs : list cell) (rs : list (Z * list cell))
  : list (Z * list cell) :=
  match rs, vs with
  | r :: rs', v :: vs' => (r.1, put_cell p v r.2) :: put_column p vs' rs'
  | r :: rs', [] => (r.1, put_cell p NaN r.2) :: put_column p [] rs'
  | [], _ => []
  end.

Definition setitem_series (df : DataFrame) (c : string) (s : Series)
  : DataFrame :=
  match col_pos c (columns df) with
  | Some p => mkDF (columns df) (put_column p (s_values s) (rows df))
  | None =>
      mkDF (columns df ++ [c])
           (put_column (length (columns df)) (s_values s) (rows df))
  end.

(** [df.columns = [col.lower() for col in df.columns]] *)
Definition lower_columns (df : DataFrame) : DataFrame :=
  mkDF (List.map lower (columns df)) (rows df).

(** [cell == s] for a Python string [s]. *)
Definition cell_eq_str (c : cell) (s : string) : bool :=
  match c with
  | CStr t => String.eqb t s
  | _ => false
  end.

(** [df[df[c] == s]]: the rows whose cell in column [c] equals [s],
    with their index labels. *)
Definition select_eq (df : DataFrame) (c s : string) : result DataFrame :=
  match col_pos c (columns df) with
  | Some p =>
      Ok (mkDF (columns df)
               (List.filter (fun r => cell_eq_str (cell_at p r.2) s) (rows df)))
  | None => Raise (KeyError c)
  end.

(** *** Arithmetic *)

(** An int64 wraps around. *)
Definition wrap64 (z : Z) : Z := (z + 2 ^ 63) mod 2 ^ 64 - 2 ^ 63.

(** int64 to float64, rounding to nearest. *)
Definition float_of_int64 (z : Z) : float :=
  if z =? - 2 ^ 63 then (-0x1p63)%float
  else if z <? 0 then (- PrimFloat.of_uint63 (Uint63.of_Z (- z)))%float
  else PrimFloat.of_uint63 (Uint63.of_Z z).

Definition to_float (c : cell) : option float :=
  match c with
  | CInt z => Some (float_of_int64 z)
  | CFloat f => Some f
  | CStr _ => None
  end.

(** True division [a / b]: numbers divide as float64 (IEEE 754, so a
    zero divisor gives an infinity or NaN); a string is a [TypeError]. *)
Definition cell_div (a b : cell) : result cell :=
  match to_float a, to_float b with
  | Some x, Some y => Ok (CFloat (x / y))
  | _, _ => Raise TypeError
  end.

(** [a / b] on two series with the same index. *)
Fixpoint series_div (a b : Series) : result Series :=
  match a, b with
  | (i, x) :: a', (_, y) :: b' =>
      match cell_div x y with
      | Ok q =>
          match series_div a' b' with
          | Ok s => Ok ((i, q) :: s)
          | Raise e => Raise e
          end
      | Raise e => Raise e
      end
  | _, _ => Ok []
  end.

Definition is_int (c : cell) : bool :=
  match c with CInt _ => true | _ => false end.
Definition is_num (c : cell) : bool :=
  match c with CStr _ => false | _ => true end.
Definition int_of (c : cell) : Z :=
  match c with CInt z => z | _ => 0 end.

(** [s.sum()]: an int64 column sums in int64; a column with floats sums
    in float64 and skips NaN; a column with strings does not sum to a
    number. *)
Definition float_acc (acc : float) (c : cell) : float :=
  match to_float c with
  | Some f => if PrimFloat.is_nan f then acc else (acc + f)%float
  | None => acc
  end.

Definition values_sum (vs : list cell) : result cell :=
  if forallb is_int vs
  then Ok (CInt (wrap64 (fold_left Z.add (List.map int_of vs) 0)))
  else if forallb is_num vs
  then Ok (CFloat (fold_left float_acc vs 0%float))
  else Raise TypeError.

Definition series_sum (s : Series) : result cell := values_sum (s_values s).

(** *** Label-based lookup *)

(** [df.loc[labels, c]]: for each label in turn, every row of [df]
    carrying that label; a label carried by no row is a [KeyError]. *)
Fixpoint loc_labels (labels : list Z) (col : Series) : result Series :=
  match labels with
  | [] => Ok []
  | l :: labels' =>
      match List.filter (fun e => e.1 =? l) col with
      | [] => Raise (KeyError (str_int l))
      | hit =>
          match loc_labels labels' col with
          | Ok s => Ok (hit ++ s)
          | Raise e => Raise e
          end
      end
  end.

Definition loc (df : DataFrame) (labels : list Z) (c : string)
  : result Series :=
  match getitem df c with
  | Ok col => loc_labels labels col
  | Raise e => Raise e
  end.

(** *** Concatenation *)

Definition add_column (acc : list string) (c : string) : list string :=
  if existsb (String.eqb c) acc then acc else acc ++ [c].

(** The union of the frames' column labels, in order of first
    appearance. *)
Definition union_columns (frames : list DataFrame) : list string :=
  fold_left (fun acc df => fold_left add_column (columns df) acc) frames [].

(** A row of a frame with columns [cols] laid out on [allcols]; the
    columns the frame lacks are filled with NaN. *)
Definition reindex_row (cols allcols : list string) (r : list cell)
  : list cell :=
  List.map (fun c => match col_pos c cols with
                     | Some p => cell_at p r
                     | None => NaN
                     end) allcols.

Definition stacked_rows (allcols : list string) (frames : list DataFrame)
  : list (list cell) :=
  flat_map (fun df => List.map (fun r => reindex_row (columns df) allcols r.2)
                               (rows df)) frames.

(** Fresh index labels 0, 1, 2, ... *)
Fixpoint number_from (n : Z) (rs : list (list cell)) : list (Z * list cell) :=
  match rs with
  | [] => []
  | r :: rs' => (n, r) :: number_from (n + 1) rs'
  end.

(** [pd.concat(frames, ignore_index=True)]; no frame at all is a
    [ValueError]. *)
Definition concat_ignore_index (frames : list DataFrame)
  : result DataFrame :=
  match frames with
  | [] => Raise (ValueError "No objects to concatenate")
  | _ =>
      let allcols := union_columns frames in
      Ok (mkDF allcols (number_from 0 (stacked_rows allcols frames)))
  end.

(** [df.head()] *)
Definition head5 (df : DataFrame) : DataFrame :=
  mkDF (columns df) (take 5 (rows df)).

End Pandas.
Export Pandas.

(** ** The running program: objects, globals and effects *)

Module Runtime.

(** What the global name [combined_df] can be bound to. *)
Inductive pyobj : Type :=
| PyNone
| PyFrame (r : nat).

(** A row of the cache directory: the pickled table and the time at
    which it expires, if it expires at all. *)
Record cache_entry : Type := mkEntry {
  ce_value : DataFrame;
  ce_expire_time : option float
}.

Inductive output : Type :=
| Line (s : string)
| Table (df : DataFrame).

Record world : Type := mkWorld {
  heap : gmap nat DataFrame;        (* the live DataFrame objects *)
  next_ref : nat;                   (* identity of the next object *)
  g_combined_df : option pyobj;     (* module global; [None]: unbound *)
  stdout : list output;
  clock : float;                    (* [time.time()] *)
  storage_ok : bool;                (* can [./cache] be opened, read, written *)
  disk : gmap string cache_entry;   (* contents of [./cache] *)
  requests : list string            (* seasons asked of the provider *)
}.

(** A computation runs in a world and either returns or raises; the
    world it leaves is kept in both cases. *)
Definition M (A : Type) : Type := world -> result A * world.

Definition ret {A} (a : A) : M A := fun w => (Ok a, w).

Definition raise {A} (e : exn) : M A := fun w => (Raise e, w).

Definition bind {A B} (m : M A) (k : A -> M B) : M B :=
  fun w =>
    match m w with
    | (Ok a, w') => k a w'
    | (Raise e, w') => (Raise e, w')
    end.

(** [try: body / except Exception as e: handler e] *)
Definition try_except {A} (body : M A) (handler : exn -> M A) : M A :=
  fun w =>
    match body w with
    | (Ok a, w') => (Ok a, w')
    | (Raise e, w') =>
        if is_Exception e then handler e w' else (Raise e, w')
    end.

Definition lift {A} (r : result A) : M A := fun w => (r, w).

Declare Scope py_scope.
Delimit Scope py_scope with py.
Notation "x <- m ;; k" := (bind m (fun x => k))
  (at level 100, m at next level, right associativity) : py_scope.
Notation "m ;; k" := (bind m (fun _ => k))
  (at level 100, right associativity) : py_scope.
Local Open Scope py_scope.

(** *** The object store *)

Definition alloc (df : DataFrame) : M nat :=
  fun w =>
    (Ok (next_ref w),
     mkWorld (<[next_ref w := df]> (heap w)) (S (next_ref w))
             (g_combined_df w) (stdout w) (clock w) (storage_ok w)
             (disk w) (requests w)).

Definition deref (r : nat) : M DataFrame :=
  fun w =>
    match heap w !! r with
    | Some df => (Ok df, w)
    | None => (Raise (ValueError "no such object"), w)
    end.

(** In-place update of the object [r]. *)
Definition update (r : nat) (f : DataFrame -> DataFrame) : M unit :=
  fun w =>
    (Ok tt,
     mkWorld (alter f r (heap w)) (next_ref w)
             (g_combined_df w) (stdout w) (clock w) (storage_ok w)
             (disk w) (requests w)).

(** *** Globals, output, time *)

(** [combined_df = v] under [global combined_df]. *)
Definition store_combined_df (v : pyobj) : M unit :=
  fun w =>
    (Ok tt,
     mkWorld (heap w) (next_ref w) (Some v) (stdout w) (clock w)
             (storage_ok w) (disk w) (requests w)).

(** Reading the name [combined_df]: a [NameError] while it is unbound. *)
Definition load_combined_df : M pyobj :=
  fun w =>
    match g_combined_df w with
    | Some v => (Ok v, w)
    | None => (Raise (NameError "combined_df"), w)
    end.

(** [combined_df[...]], [combined_df.groupby], ...: the name must hold a
    DataFrame. *)
Definition combined_frame : M DataFrame :=
  v <- load_combined_df ;;
  match v with
  | PyFrame r => deref r
  | PyNone => raise TypeError
  end.

Definition emit (o : output) : M unit :=
  fun w =>
    (Ok tt,
     mkWorld (heap w) (next_ref w) (g_combined_df w) (stdout w ++ [o])
             (clock w) (storage_ok w) (disk w) (requests w)).

Definition print (s : string) : M unit := emit (Line s).

(** [time.sleep(d)] *)
Definition sleep (d : float) : M unit :=
  fun w =>
    (Ok tt,
     mkWorld (heap w) (next_ref w) (g_combined_df w) (stdout w)
             (clock w + d)%float (storage_ok w) (disk w) (requests w)).

(** *** diskcache *)

Definition storage_error : exn := CacheError "unable to open database file".

(** [diskcache.Cache("./cache")] *)
Definition open_cache : M unit :=
  fun w => if storage_ok w then (Ok tt, w) else (Raise storage_error, w).

(** An entry is live while its expiry time lies strictly after now
    ([expire_time IS NULL OR expire_time > now]). *)
Definition live (now : float) (e : cache_entry) : bool :=
  match ce_expire_time e with
  | None => true
  | Some t => (now <? t)%float
  end.

(** The value the cache holds for [key] at time [now]: that of its
    entry, if there is one and it is live. *)
Definition cached (now : float) (d : gmap string cache_entry)
  (key : string) : option DataFrame :=
  match d !! key with
  | Some e => if live now e then Some (ce_value e) else None
  | None => None
  end.

(** [cache.get(key, default=ENOVAL)] *)
Definition cache_get (key : string) : M (option DataFrame) :=
  fun w =>
    if storage_ok w then (Ok (cached (clock w) (disk w) key), w)
    else (Raise storage_error, w).

(** [cache.set(key, value, expire)]: the entry expires at
    [now + expire]. *)
Definition cache_set (key : string) (v : DataFrame) (expire : float)
  : M unit :=
  fun w =>
    if storage_ok w then
      (Ok tt,
       mkWorld (heap w) (next_ref w) (g_combined_df w) (stdout w) (clock w)
               (storage_ok w)
               (<[key := mkEntry v (Some (clock w + expire)%float)]> (disk w))
               (requests w))
    else (Raise storage_error, w).

(** [@cache.memoize(expire=...)] around a function of one string that
    returns a DataFrame.  A hit unpickles the stored table into a new
    object; a miss runs the function and pickles what it returned. *)
Definition memoize (expire : float) (func : string -> M nat)
  (key : string) : M nat :=
  hit <- cache_get key ;;
  match hit with
  | Some v => alloc v
  | None =>
      r <- func key ;;
      v <- deref r ;;
      (if (0 <? expire)%float then cache_set key v expire else ret tt) ;;
      ret r
  end.

End Runtime.
Export Runtime.

(** ** The script *)

Local Open Scope py_scope.

(** Insertion sort of strings in ascending order (code-point order, as
    Python compares strings). *)
Fixpoint insert_sorted (k : string) (l : list string) : list string :=
  match l with
  | [] => [k]
  | k' :: l' => if String.leb k k' then k :: l else k' :: insert_sorted k l'
  end.

Definition sort_strings (l : list string) : list string :=
  fold_right insert_sorted [] l.

(** The same, on rows keyed by a string: [sort_values] on a string column. *)
Fixpoint insert_by_key {A} (e : string * A) (l : list (string * A))
  : list (string * A) :=
  match l with
  | [] => [e]
  | e' :: l' =>
      if String.leb e.1 e'.1 then e :: l else e' :: insert_by_key e l'
  end.

Definition sort_by_key {A} (l : list (string * A)) : list (string * A) :=
  fold_right insert_by_key [] l.

(** Distinct strings, in order of first appearance. *)
Fixpoint distinct (l : list string) : list string :=
  match l with
  | [] => []
  | k :: l' => k :: List.filter (fun k' => negb (String.eqb k' k)) (distinct l')
  end.

Definition cell_str (c : cell) : option string :=
  match c with CStr s => Some s | _ => None end.

(** The keys of [groupby(c)]: the distinct strings of the column, sorted;
    missing values form no group. *)
Definition group_keys (key_col : Series) : list string :=
  sort_strings (distinct (omap cell_str (s_values key_col))).

(** The part of the series [col] that falls in the group [k]: the entries
    at the positions where the key column holds [k], with their labels. *)
Definition group_of (key_col col : Series) (k : string) : Series :=
  List.map snd
    (List.filter (fun p => cell_eq_str p.1.2 k) (combine key_col col)).

(** What a chart shows: its title and the two plotted columns. *)
Record Figure : Type := mkFig {
  fig_title : string;
  fig_x : list cell;
  fig_y : list cell
}.

(** [px.bar(df, x=..., y=..., title=...)]; plotly rejects a name that is
    no column with a [ValueError]. *)
Definition px_figure (df : DataFrame) (x y title : string) : result Figure :=
  match getitem df x, getitem df y with
  | Ok xs, Ok ys => Ok (mkFig title (s_values xs) (s_values ys))
  | _, _ => Raise (ValueError "not the name of a column")
  end.

(** The download handed to the browser: [to_csv(index=False)] writes the
    column labels and then the cells of every row, without the index. *)
Record Download : Type := mkDownload {
  dl_filename : string;
  dl_header : list string;
  dl_records : list (list cell)
}.

Definition to_csv_no_index (df : DataFrame) (filename : string) : Download :=
  mkDownload filename (columns df) (List.map snd (rows df)).

(** The season dropdown of the layout. *)
Record Layout : Type := mkLayout {
  dropdown_options : list string;
  dropdown_value : string
}.

Inductive outcome : Type :=
| Serving (l : Layout)     (* [app.run(...)] was reached *)
| NotStarted.              (* the [else] branch: no dashboard *)

Section Script.

(** [LeagueDashTeamStats(season=season).get_data_frames()[0]]: the
    answer of the statistics provider, a table or an exception. *)
Variable provider : string -> result DataFrame.

Definition provider_call (season : string) : M DataFrame :=
  fun w =>
    (provider season,
     mkWorld (heap w) (next_ref w) (g_combined_df w) (stdout w) (clock w)
             (storage_ok w) (disk w) (requests w ++ [season])).

(** Lines 14-39, the function under the decorator. *)
Definition fetch_nba_team_stats_body (season : string) : M nat :=
  try_except
    (data <- provider_call season ;;
     df <- alloc data ;;
     update df lower_columns ;;
     ret df)
    (fun e =>
       print ("Error fetching data for season " +:+ season +:+ ": "
              +:+ exn_str e) ;;
       alloc empty_frame).

(** Line 13: [@cache.memoize(expire=3600)]. *)
Definition fetch_nba_team_stats : string -> M nat :=
  memoize 3600 fetch_nba_team_stats_body.

(** Lines 54-60: the loop over the seasons, [all_team_stats] being the
    list built so far. *)
Fixpoint fetch_seasons (todo : list string) (all_team_stats : list nat)
  : M (list nat) :=
  match todo with
  | [] => ret all_team_stats
  | season :: todo' =>
      print ("Fetching data for season: " +:+ season) ;;
      team_stats <- fetch_nba_team_stats season ;;
      df <- deref team_stats ;;
      acc <- (if df_empty df then ret all_team_stats
              else
                update team_stats
                       (fun d => setitem_scalar d "season" (CStr season)) ;;
                ret (all_team_stats ++ [team_stats])) ;;
      sleep 2 ;;
      fetch_seasons todo' acc
  end.

Fixpoint deref_all (rs : list nat) : M (list DataFrame) :=
  match rs with
  | [] => ret []
  | r :: rs' => df <- deref r ;; dfs <- deref_all rs' ;; ret (df :: dfs)
  end.

(** Lines 50-69, for a given list of seasons. *)
Definition main_on (seasons : list string) : M unit :=
  match head seasons, last seasons with
  | Some first, Some final =>
      print ("Fetching data for " +:+ str_int (Z.of_nat (length seasons))
             +:+ " seasons from " +:+ first +:+ " to " +:+ final) ;;
      all_team_stats <- fetch_seasons seasons [] ;;
      match all_team_stats with
      | [] => print "No data fetched."
      | _ =>
          frames <- deref_all all_team_stats ;;
          df <- lift (concat_ignore_index frames) ;;
          r <- alloc df ;;
          store_combined_df (PyFrame r) ;;
          print ("Successfully fetched data for "
                 +:+ str_int (Z.of_nat (length all_team_stats))
                 +:+ " seasons") ;;
          emit (Table (head5 df))
      end
  | _, _ => raise IndexError
  end.

(** Lines 41-69. *)
Definition main : M unit := main_on seasons.

(** Lines 90-96: the dropdown lists [combined_df['season'].unique()] and
    starts on its first element. *)
Definition build_layout : M Layout :=
  df <- combined_frame ;;
  col <- lift (getitem df "season") ;;
  match distinct (omap cell_str (s_values col)) with
  | [] => raise IndexError
  | s :: rest => ret (mkLayout (s :: rest) s)
  end.

(** Lines 71-271: the module body, after the cache has been opened on
    line 11. *)
Definition script_on (seasons : list string) : M outcome :=
  open_cache ;;
  main_on seasons ;;
  v <- load_combined_df ;;
  match v with
  | PyNone =>
      print "No data available to create dashboard" ;;
      ret NotStarted
  | PyFrame _ =>
      l <- build_layout ;;
      ret (Serving l)
  end.

Definition script : M outcome := script_on seasons.

End Script.

(** *** The callbacks of the dashboard *)

(** Lines 137-145 and 172-180: both bar charts filter the combined table
    on the selected season, copy the selection, add the quotient of the
    column [num] by the column [gp] to the copy as column [out], and plot
    it against the team names. *)
Definition per_game_graph (num out title : string) (selected_season : string)
  : M Figure :=
  df <- combined_frame ;;
  selection <- lift (select_eq df "season" selected_season) ;;
  tmp <- alloc selection ;;
  sel <- deref tmp ;;
  filtered_df <- alloc sel ;;
  f <- deref filtered_df ;;
  a <- lift (getitem f num) ;;
  b <- lift (getitem f "gp") ;;
  q <- lift (series_div a b) ;;
  update filtered_df (fun d => setitem_series d out q) ;;
  f' <- deref filtered_df ;;
  lift (px_figure f' "team_name" out (title +:+ selected_season)).

Definition update_points_graph (selected_season : string) : M Figure :=
  per_game_graph "pts" "pts_per_g" "Team Points Per Game - " selected_season.

Definition update_threes_graph (selected_season : string) : M Figure :=
  per_game_graph "fg3m" "fg3_per_g" "Team Three Pointers Made Per Game - "
                 selected_season.

(** Line 200: [lambda x: x.sum() / combined_df.loc[x.index, 'gp'].sum()],
    [x] being the part of column [fg3a] in one group. *)
Definition fg3a_per_g (combined_df : DataFrame) (x : Series) : result cell :=
  match series_sum x with
  | Ok attempts =>
      match loc combined_df (s_index x) "gp" with
      | Ok gp =>
          match series_sum gp with
          | Ok games => cell_div attempts games
          | Raise e => Raise e
          end
      | Raise e => Raise e
      end
  | Raise e => Raise e
  end.

Fixpoint agg_groups (f : Series -> result cell) (key_col col : Series)
  (keys : list string) : result (list (string * cell)) :=
  match keys with
  | [] => Ok []
  | k :: keys' =>
      match f (group_of key_col col k) with
      | Ok v =>
          match agg_groups f key_col col keys' with
          | Ok l => Ok ((k, v) :: l)
          | Raise e => Raise e
          end
      | Raise e => Raise e
      end
  end.

(** Lines 199-201: [groupby('season', as_index=False).agg(...)] followed
    by [sort_values('season')]; one pair (season, rate) per group. *)
Definition season_avg (combined_df : DataFrame)
  : result (list (string * cell)) :=
  match getitem combined_df "season" with
  | Ok key_col =>
      match getitem combined_df "fg3a" with
      | Ok col =>
          match agg_groups (fg3a_per_g combined_df) key_col col
                           (group_keys key_col) with
          | Ok l => Ok (sort_by_key l)
          | Raise e => Raise e
          end
      | Raise e => Raise e
      end
  | Raise e => Raise e
  end.

Definition update_threes_trend (selected_season : string) : M Figure :=
  df <- combined_frame ;;
  avg <- lift (season_avg df) ;;
  ret (mkFig "Evolution of NBA 3-Point Attempts Per Game"
             (List.map (fun p => CStr p.1) avg) (List.map snd avg)).

(** Lines 252-267; [n_clicks] is [None] or a number. *)
Definition export_data (n_clicks : option Z) : M (option Download) :=
  match n_clicks with
  | Some n =>
      if n =? 0 then ret None
      else df <- combined_frame ;; ret (Some (to_csv_no_index df "nba_stats.csv"))
  | None => ret None
  end.

(** *** The league trend as the design describes it *)

(** For one season: the sum of the three-point attempts of the season's
    rows divided by the sum of the games played of the season's rows, two
    grouped sums that never look a row up by its index label. *)
Definition spec_rate_of_season (df : DataFrame) (key_col attempts : Series)
  (k : string) : result cell :=
  match series_sum (group_of key_col attempts k) with
  | Ok a =>
      match getitem df "gp" with
      | Ok games =>
          match series_sum (group_of key_col games k) with
          | Ok g => cell_div a g
          | Raise e => Raise e
          end
      | Raise e => Raise e
      end
  | Raise e => Raise e
  end.

Fixpoint spec_rates (df : DataFrame) (key_col attempts : Series)
  (keys : list string) : result (list (string * cell)) :=
  match keys with
  | [] => Ok []
  | k :: keys' =>
      match spec_rate_of_season df key_col attempts k with
      | Ok v =>
          match spec_rates df key_col attempts keys' with
          | Ok l => Ok ((k, v) :: l)
          | Raise e => Raise e
          end
      | Raise e => Raise e
      end
  end.

(** One point per season, in ascending order of the seasons. *)
Definition spec_league_trend (df : DataFrame)
  : result (list (string * cell)) :=
  match getitem df "season" with
  | Ok key_col =>
      match getitem df "fg3a" with
      | Ok attempts =>
          match spec_rates df key_col attempts (group_keys key_col) with
          | Ok l => Ok (sort_by_key l)
          | Raise e => Raise e
          end
      | Raise e => Raise e
      end
  | Raise e => Raise e
  end.

(** *** Tables used in the examples *)

(** A provider table with the columns the dashboard reads. *)
Definition team_row (i : Z) (team : string) (gp pts fg3m fg3a : Z)
  : Z * list cell :=
  (i, [CStr team; CInt gp; CInt pts; CInt fg3m; CInt fg3a]).

Definition provider_columns : list string :=
  ["TEAM_NAME"; "GP"; "PTS"; "FG3M"; "FG3A"].


(** The table a fetch computes when the cache has no live entry: the
    provider's table with lower-case column labels, or the empty table
    when the provider failed. *)
Definition fresh_table (provider : string -> result DataFrame)
  (season : string) : DataFrame :=
  match provider season with
  | Ok data => lower_columns data
  | Raise _ => empty_frame
  end.

(** What the provider answers in the examples: three teams for 2023-24,
    a table without rows for 2022-23, and a failure for any other season. *)
Definition three_teams : DataFrame :=
  mkDF provider_columns
       [team_row 0 "Celtics" 82 9887 1351 3482;
        team_row 1 "Nuggets" 82 9418 962 2572;
        team_row 2 "Pistons" 0 0 0 0].

Definition example_provider (season : string) : result DataFrame :=
  if String.eqb season "2023-24" then Ok three_teams
  else if String.eqb season "2022-23" then Ok (mkDF provider_columns [])
  else Raise (ProviderError "Read timed out").

(** A provider that is down. *)
Definition failing_provider (season : string) : result DataFrame :=
  Raise (ProviderError "Connection refused").

(** The table a fetch returns at time [now] with cache contents [d]. *)
Definition fetched (provider : string -> result DataFrame) (now : float)
  (d : gmap string cache_entry) (season : string) : DataFrame :=
  match cached now d season with
  | Some v => v
  | None => fresh_table provider season
  end.

(** The tables the loop of [main] is handed, season by season, when it
    starts at time [now] with cache contents [d]: two seconds pass between
    one fetch and the next. *)
Fixpoint fetched_tables (provider : string -> result DataFrame)
  (d : gmap string cache_entry) (now : float) (seasons : list string)
  : list (string * DataFrame) :=
  match seasons with
  | [] => []
  | s :: seasons' =>
      (s, fetched provider now d s)
      :: fetched_tables provider d (now + 2)%float seasons'
  end.

(** The results that are not empty. *)
Definition kept_tables (results : list (string * DataFrame))
  : list (string * DataFrame) :=
  List.filter (fun p => negb (df_empty p.2)) results.

(** A result with its season column. *)
Definition stamp (p : string * DataFrame) : DataFrame :=
  setitem_scalar p.2 "season" (CStr p.1).

(** A world as the interpreter starts in: no object, no global, nothing
    printed, an empty cache directory. *)
Definition fresh_world (now : float) (storage : bool) : world :=
  mkWorld ∅ 0 None [] now storage ∅ [].

(** The world in which the dashboard of the example is served, and its
    combined table: object 0 is the table of 2023-24, object 1 the empty
    table of 2022-23, object 2 their concatenation. *)
Definition served_world : world :=
  (main_on example_provider ["2023-24"; "2022-23"] (fresh_world 0 true)).2.

Definition result_or {A} (d : A) (r : result A) : A :=
  match r with Ok a => a | Raise _ => d end.

Definition served_table : DataFrame :=
  default empty_frame (heap served_world !! 2%nat).

Definition served_selection : DataFrame :=
  result_or empty_frame (select_eq served_table "season" "2023-24").

Definition served_column (c : string) : Series :=
  result_or [] (getitem served_selection c).

(** Neither a finite number nor a marker: what IEEE 754 gives for a zero
    divisor. *)
Definition nan_or_infinite (v : float) : Prop :=
  v = nan \/ v = infinity \/ v = neg_infinity.


(** The object [r] and the global [combined_df] are as they were: the
    name is bound to [r] and [r] holds [df]. *)
Definition untouched (r : nat) (df : DataFrame) (w' : world) : Prop :=
  g_combined_df w' = Some (PyFrame r) /\ heap w' !! r = Some df.

(** The four queries of the dashboard answer the same in two worlds. *)
Definition same_answers (w w' : world) (selected_season : string)
  (n_clicks : option Z) : Prop :=
  (update_points_graph selected_season w').1
  = (update_points_graph selected_season w).1 /\
  (update_threes_graph selected_season w').1
  = (update_threes_graph selected_season w).1 /\
  (update_threes_trend selected_season w').1
  = (update_threes_trend selected_season w).1 /\
  (export_data n_clicks w').1 = (export_data n_clicks w).1.




(** The years written with four digits whose successor is too. *)
Definition four_digit_years : list Z := Py.range 1000 9999 1.

(** The clock after [n] rounds of the loop of [main], each of which ends
    in [time.sleep(2)]. *)
Fixpoint slept (n : nat) (now : float) : float :=
  match n with
  | O => now
  | S n' => slept n' (now + 2)%float
  end.

(** The seasons the loop of [main] has to ask the provider for when it
    starts at time [now] with cache contents [d]: those without a live
    entry at the time of their turn. *)
Fixpoint missed (d : gmap string cache_entry) (now : float)
  (seasons : list string) : list string :=
  match seasons with
  | [] => []
  | s :: seasons' =>
      match cached now d s with
      | Some _ => missed d (now + 2)%float seasons'
      | None => s :: missed d (now + 2)%float seasons'
      end
  end.

(** A computation that leaves the global [combined_df] as it found it,
    whether it returns or raises. *)
Definition keeps_global {A} (m : M A) : Prop :=
  forall w, g_combined_df (m w).2 = g_combined_df w.

(** A provider that answers for 2023-24 and is interrupted from the
    keyboard on any other season. *)
Definition interrupted_provider (season : string) : result DataFrame :=
  if String.eqb season "2023-24" then Ok three_teams
  else Raise KeyboardInterrupt.
(** Strings in ascending order, each no greater than the next. *)
Fixpoint ascending (l : list string) : bool :=
  match l with
  | [] => true
  | x :: l' =>
      match l' with
      | [] => true
      | y :: _ => String.leb x y && ascending l'
      end
  end.

(** A provider that has the same three teams for every season, the world
    served from two seasons of it, and its combined table (object 2). *)
Definition full_provider (season : string) : result DataFrame :=
  Ok three_teams.

Definition full_world : world :=
  (main_on full_provider ["2023-24"; "2022-23"] (fresh_world 0 true)).2.

Definition full_table : DataFrame :=
  default empty_frame (heap full_world !! 2%nat).

(** * Properties *)

(** ** Season identifiers: properties *)

Lemma strictly_descending_spec (l : list Z) :
  strictly_descending l = true ->
  forall i j x y, (i < j)%nat -> l !! i = Some x -> l !! j = Some y -> y < x.
Proof.
  induction l as [|a l IH]; intros Hd i j x y Hij Hi Hj.
  - rewrite lookup_nil in Hi. discriminate.
  - assert (Hall : forall k z, l !! k = Some z -> z < a).
    { clear Hij Hi Hj IH i j x y. revert a Hd.
      induction l as [|b l IHl]; intros a Hd k z Hk.
      - rewrite lookup_nil in Hk. discriminate.
      - simpl in Hd. apply andb_true_iff in Hd as [Hba Hd].
        apply Z.ltb_lt in Hba.
        destruct k as [|k]; simpl in Hk.
        + inversion Hk; subst. exact Hba.
        + specialize (IHl b Hd k z Hk). lia. }
    assert (Hd' : strictly_descending l = true).
    { simpl in Hd. destruct l; [reflexivity|].
      apply andb_true_iff in Hd. tauto. }
    destruct i as [|i]; destruct j as [|j]; try lia; simpl in Hi, Hj.
    + inversion Hi; subst. eapply Hall; eauto.
    + eapply (IH Hd' i j); eauto. lia.
Qed.

Example season_2024 : season_of_year 2024 = "2024-25".
Proof. reflexivity. Qed.

Example season_1999 : season_of_year 1999 = "1999-00".
Proof. reflexivity. Qed.

(** C3: the sequence generated from 2024 down to 1990 has 35 identifiers,
    one per year in strictly descending order; each has the form "YYYY-YY"
    with suffix [(YYYY + 1) mod 100]; the first is "2024-25", the last is
    "1990-91", and no identifier occurs twice. *)
Theorem C3_season_sequence :
  length seasons = 35%nat /\
  (forall i : nat, (i < 35)%nat ->
     seasons !! i = Some (yyyy_yy (2024 - Z.of_nat i)) /\
     (season_year <$> seasons !! i) = Some (Some (2024 - Z.of_nat i))) /\
  (forall (i j : nat) (s t : string) (y z : Z),
     (i < j)%nat -> seasons !! i = Some s -> seasons !! j = Some t ->
     season_year s = Some y -> season_year t = Some z -> z < y) /\
  head seasons = Some "2024-25" /\
  last seasons = Some "1990-91" /\
  NoDup seasons.
Proof.
  assert (Hs : seasons = List.map yyyy_yy (Py.range 2024 1989 (-1)))
    by (vm_compute; reflexivity).
  assert (Hy : List.map season_year seasons
               = List.map Some (Py.range 2024 1989 (-1)))
    by (vm_compute; reflexivity).
  assert (Hr : forall i : nat, (i < 35)%nat ->
               Py.range 2024 1989 (-1) !! i = Some (2024 - Z.of_nat i)).
  { intros i Hi. unfold Py.range.
    replace (Z.to_nat (range_len 2024 1989 (-1))) with 35%nat
      by (vm_compute; reflexivity).
    rewrite list_lookup_fmap, lookup_seq_lt by lia. simpl. f_equal. lia. }
  split; [vm_compute; reflexivity|].
  split.
  { intros i Hi. split.
    - rewrite Hs. change (List.map yyyy_yy) with (fmap (M:=list) yyyy_yy).
      rewrite list_lookup_fmap, (Hr i Hi). reflexivity.
    - rewrite <- list_lookup_fmap.
      change (fmap (M:=list) season_year seasons)
        with (List.map season_year seasons).
      rewrite Hy. change (List.map Some) with (fmap (M:=list) (@Some Z)).
      rewrite list_lookup_fmap, (Hr i Hi). reflexivity. }
  split.
  { intros i j s t y z Hij Hi Hj Hsy Htz.
    assert (Hyi : List.map season_year seasons !! i = Some (Some y)).
    { change (List.map season_year) with (fmap (M:=list) season_year).
      rewrite list_lookup_fmap, Hi. simpl. by rewrite Hsy. }
    assert (Hzj : List.map season_year seasons !! j = Some (Some z)).
    { change (List.map season_year) with (fmap (M:=list) season_year).
      rewrite list_lookup_fmap, Hj. simpl. by rewrite Htz. }
    rewrite Hy in Hyi, Hzj.
    change (List.map Some) with (fmap (M:=list) (@Some Z)) in Hyi, Hzj.
    rewrite list_lookup_fmap in Hyi, Hzj.
    destruct (Py.range 2024 1989 (-1) !! i) as [y'|] eqn:Ei; [|discriminate].
    destruct (Py.range 2024 1989 (-1) !! j) as [z'|] eqn:Ej; [|discriminate].
    simpl in Hyi, Hzj. inversion Hyi; inversion Hzj; subst.
    assert (Hd : strictly_descending (Py.range 2024 1989 (-1)) = true)
      by (vm_compute; reflexivity).
    eapply (strictly_descending_spec _ Hd); eauto. }
  split; [vm_compute; reflexivity|].
  split; [vm_compute; reflexivity|].
  refine (bool_decide_unpack (NoDup seasons) _). vm_compute. reflexivity.
Qed.

(** ** Columns, groups and label lookup *)

Lemma getitem_col_of (df : DataFrame) (c : string) (p : nat) :
  col_pos c (columns df) = Some p -> getitem df c = Ok (col_of p (rows df)).
Proof. intros H. unfold getitem. rewrite H. reflexivity. Qed.

Lemma getitem_inv (df : DataFrame) (c : string) (s : Series) :
  getitem df c = Ok s ->
  exists p, col_pos c (columns df) = Some p /\ s = col_of p (rows df).
Proof.
  unfold getitem. destruct (col_pos c (columns df)) as [p|]; [|discriminate].
  intros H. inversion H. eauto.
Qed.

Lemma s_index_col_of (p : nat) (rs : list (Z * list cell)) :
  s_index (col_of p rs) = List.map fst rs.
Proof.
  unfold s_index, col_of. rewrite List.map_map. reflexivity.
Qed.

Lemma length_col_of (p : nat) (rs : list (Z * list cell)) :
  length (col_of p rs) = length rs.
Proof. unfold col_of. apply List.length_map. Qed.

(** Grouping a column of a frame by a key column of the same frame is
    filtering the rows on the key. *)
Lemma group_of_col_of (ps p : nat) (rs : list (Z * list cell)) (k : string) :
  group_of (col_of ps rs) (col_of p rs) k
  = col_of p (List.filter (fun r => cell_eq_str (cell_at ps r.2) k) rs).
Proof.
  unfold group_of.
  induction rs as [|r rs IH]; [reflexivity|].
  simpl. destruct (cell_eq_str (cell_at ps r.2) k); simpl; rewrite IH;
    reflexivity.
Qed.

Lemma col_of_filter_incl (p : nat) (f : Z * list cell -> bool)
  (rs : list (Z * list cell)) (e : Z * cell) :
  In e (col_of p (List.filter f rs)) -> In e (col_of p rs).
Proof.
  unfold col_of. rewrite !in_map_iff. intros (r & Hr & Hin).
  apply filter_In in Hin as [Hin _]. eauto.
Qed.


(** With distinct labels, a label selects the one entry that carries it. *)
Lemma filter_label_unique (col : Series) (e : Z * cell) :
  NoDup (List.map fst col) -> In e col ->
  List.filter (fun e' => e'.1 =? e.1) col = [e].
Proof.
  induction col as [|a col IH]; intros Hnd Hin; [destruct Hin|].
  simpl in Hnd. apply NoDup_cons in Hnd as [Hna Hnd].
  assert (Hrest : forall x, In x col -> x.1 = a.1 -> False).
  { intros x Hx Heq. apply Hna. apply list_elem_of_In.
    rewrite <- Heq. apply in_map. exact Hx. }
  simpl. destruct Hin as [->|Hin].
  - rewrite Z.eqb_refl. f_equal.
    clear IH Hnd Hna. induction col as [|b col IHc]; [reflexivity|].
    simpl. destruct (Z.eqb_spec b.1 e.1) as [Heq|Hne].
    + exfalso. apply (Hrest b); [left; reflexivity|exact Heq].
    + apply IHc. intros x Hx. apply Hrest. right. exact Hx.
  - destruct (Z.eqb_spec a.1 e.1) as [Heq|Hne].
    + exfalso. apply (Hrest e Hin). symmetry. exact Heq.
    + apply IH; assumption.
Qed.

(** Looking up the labels of entries of the column gives back precisely
    these entries. *)
Lemma loc_labels_sub (col sub : Series) :
  NoDup (List.map fst col) -> (forall e, In e sub -> In e col) ->
  loc_labels (List.map fst sub) col = Ok sub.
Proof.
  intros Hnd. induction sub as [|e sub IH]; intros Hsub; [reflexivity|].
  simpl. rewrite (filter_label_unique col e Hnd) by (apply Hsub; left; reflexivity).
  rewrite IH by (intros x Hx; apply Hsub; right; exact Hx).
  reflexivity.
Qed.

(** In a frame whose index labels are distinct, the lookup of column [c]
    at the labels of a group is the group's part of column [c]. *)
Lemma loc_group (df : DataFrame) (key_col col target : Series)
  (c k : string) :
  NoDup (index df) ->
  getitem df "season" = Ok key_col ->
  getitem df c = Ok target ->
  (exists c', getitem df c' = Ok col) ->
  loc df (s_index (group_of key_col col k)) c = Ok (group_of key_col target k).
Proof.
  intros Hnd Hk Ht [c' Hc].
  apply getitem_inv in Hk as (ps & _ & ->).
  apply getitem_inv in Hc as (p & _ & ->).
  unfold loc. rewrite Ht.
  apply getitem_inv in Ht as (pt & _ & ->).
  rewrite !group_of_col_of, s_index_col_of.
  rewrite <- (s_index_col_of pt). unfold s_index.
  apply loc_labels_sub.
  - change (List.map fst (col_of pt (rows df))) with (s_index (col_of pt (rows df))).
    rewrite s_index_col_of. exact Hnd.
  - intros e. apply col_of_filter_incl.
Qed.

(** *** The index after concatenation *)

Lemma number_from_fst (n : Z) (rs : list (list cell)) :
  List.map fst (number_from n rs)
  = List.map (fun i => n + Z.of_nat i) (seq 0 (length rs)).
Proof.
  revert n. induction rs as [|r rs IH]; intros n; [reflexivity|].
  simpl. f_equal; [lia|].
  rewrite IH, <- seq_shift, List.map_map.
  apply List.map_ext. intros i. lia.
Qed.

Lemma number_from_snd (n : Z) (rs : list (list cell)) :
  List.map snd (number_from n rs) = rs.
Proof.
  revert n. induction rs as [|r rs IH]; intros n; [reflexivity|].
  simpl. rewrite IH. reflexivity.
Qed.

Lemma length_number_from (n : Z) (rs : list (list cell)) :
  length (number_from n rs) = length rs.
Proof.
  revert n. induction rs as [|r rs IH]; intros n; [reflexivity|].
  simpl. rewrite IH. reflexivity.
Qed.

Lemma concat_inv (frames : list DataFrame) (df : DataFrame) :
  concat_ignore_index frames = Ok df ->
  frames <> [] /\
  df = mkDF (union_columns frames)
            (number_from 0 (stacked_rows (union_columns frames) frames)).
Proof.
  destruct frames as [|f fs]; [discriminate|].
  unfold concat_ignore_index. intros H. inversion H. split; [discriminate|].
  reflexivity.
Qed.

Lemma concat_index (frames : list DataFrame) (df : DataFrame) :
  concat_ignore_index frames = Ok df ->
  index df = List.map Z.of_nat (seq 0 (nrows df)).
Proof.
  intros H. apply concat_inv in H as [_ ->].
  unfold index, nrows. simpl.
  rewrite number_from_fst, length_number_from. reflexivity.
Qed.

Lemma range_index_NoDup (n : nat) : NoDup (List.map Z.of_nat (seq 0 n)).
Proof.
  apply NoDup_fmap_2; [intros x y; lia|]. apply NoDup_seq.
Qed.

Lemma concat_index_NoDup (frames : list DataFrame) (df : DataFrame) :
  concat_ignore_index frames = Ok df -> NoDup (index df).
Proof.
  intros H. rewrite (concat_index _ _ H). apply range_index_NoDup.
Qed.

(** ** The league trend *)

Lemma fg3a_per_g_group (df : DataFrame) (key_col col : Series) (k : string) :
  NoDup (index df) ->
  getitem df "season" = Ok key_col ->
  getitem df "fg3a" = Ok col ->
  fg3a_per_g df (group_of key_col col k)
  = spec_rate_of_season df key_col col k.
Proof.
  intros Hnd Hk Hc. unfold fg3a_per_g, spec_rate_of_season.
  destruct (series_sum (group_of key_col col k)) as [a|e]; [|reflexivity].
  destruct (getitem df "gp") as [games|e] eqn:Hg.
  - rewrite (loc_group df key_col col games "gp" k Hnd Hk Hg)
      by (exists "fg3a"; exact Hc).
    reflexivity.
  - unfold loc. rewrite Hg. reflexivity.
Qed.

Lemma agg_groups_spec_rates (df : DataFrame) (key_col col : Series)
  (keys : list string) :
  NoDup (index df) ->
  getitem df "season" = Ok key_col ->
  getitem df "fg3a" = Ok col ->
  agg_groups (fg3a_per_g df) key_col col keys
  = spec_rates df key_col col keys.
Proof.
  intros Hnd Hk Hc. induction keys as [|k keys IH]; [reflexivity|].
  simpl. rewrite (fg3a_per_g_group df key_col col k Hnd Hk Hc), IH.
  reflexivity.
Qed.

(** On a frame with distinct index labels the computation of the script
    and the two grouped sums agree, results and errors alike. *)
Lemma season_avg_spec (df : DataFrame) :
  NoDup (index df) -> season_avg df = spec_league_trend df.
Proof.
  intros Hnd. unfold season_avg, spec_league_trend.
  destruct (getitem df "season") as [key_col|e] eqn:Hk; [|reflexivity].
  destruct (getitem df "fg3a") as [col|e] eqn:Hc; [|reflexivity].
  rewrite (agg_groups_spec_rates df key_col col _ Hnd Hk Hc). reflexivity.
Qed.




(** ** Contents of a concatenation *)

Lemma col_pos_lookup (c : string) (cols : list string) (p : nat) :
  col_pos c cols = Some p -> cols !! p = Some c.
Proof.
  revert p. induction cols as [|c' cols IH]; intros p; [discriminate|].
  simpl. destruct (String.eqb_spec c c') as [->|Hne].
  - intros H. inversion H. reflexivity.
  - destruct (col_pos c cols) as [q|]; [|discriminate].
    intros H. inversion H. simpl. apply IH. reflexivity.
Qed.

Lemma col_pos_In (c : string) (cols : list string) :
  In c cols -> exists p, col_pos c cols = Some p.
Proof.
  induction cols as [|c' cols IH]; [intros []|].
  intros Hin. simpl. destruct (String.eqb_spec c c') as [->|Hne]; [eauto|].
  destruct Hin as [->|Hin]; [congruence|].
  destruct (IH Hin) as [p ->]. simpl. eauto.
Qed.









(** *** Stamping a frame with its season *)

Lemma cell_at_put_cell (p : nat) (v : cell) (r : list cell) :
  cell_at p (put_cell p v r) = v.
Proof.
  revert r. induction p as [|p IH]; intros [|x r]; simpl; try reflexivity.
  - apply (IH []).
  - apply IH.
Qed.

Lemma cell_at_nil (q : nat) : cell_at q [] = NaN.
Proof. unfold cell_at. rewrite lookup_nil. reflexivity. Qed.

Lemma cell_at_cons_S (q : nat) (x : cell) (r : list cell) :
  cell_at (S q) (x :: r) = cell_at q r.
Proof. reflexivity. Qed.

Lemma cell_at_put_cell_ne (p q : nat) (v : cell) (r : list cell) :
  p <> q -> cell_at q (put_cell p v r) = cell_at q r.
Proof.
  revert q r. induction p as [|p IH]; intros [|q] [|x r] Hne;
    try congruence; simpl.
  - rewrite cell_at_cons_S, !cell_at_nil. reflexivity.
  - rewrite !cell_at_cons_S. reflexivity.
  - reflexivity.
  - reflexivity.
  - rewrite cell_at_cons_S, IH by congruence. rewrite !cell_at_nil.
    reflexivity.
  - rewrite !cell_at_cons_S. apply IH. congruence.
Qed.

Lemma col_pos_app_new (c : string) (cols : list string) :
  col_pos c cols = None -> col_pos c (cols ++ [c]) = Some (length cols).
Proof.
  induction cols as [|c' cols IH]; simpl.
  - rewrite String.eqb_refl. reflexivity.
  - destruct (String.eqb c c'); [discriminate|].
    destruct (col_pos c cols); [discriminate|].
    intros _. rewrite IH by reflexivity. reflexivity.
Qed.





(** ** The fetcher *)

Lemma fetch_body_run (provider : string -> result DataFrame)
  (season : string) (w : world) :
  fetch_nba_team_stats_body provider season w
  = match provider season with
    | Ok data =>
        (Ok (next_ref w),
         mkWorld (<[next_ref w := lower_columns data]> (heap w))
                 (S (next_ref w)) (g_combined_df w) (stdout w) (clock w)
                 (storage_ok w) (disk w) (requests w ++ [season]))
    | Raise e =>
        if is_Exception e then
          (Ok (next_ref w),
           mkWorld (<[next_ref w := empty_frame]> (heap w))
                   (S (next_ref w)) (g_combined_df w)
                   (stdout w ++ [Line ("Error fetching data for season "
                                       +:+ season +:+ ": " +:+ exn_str e)])
                   (clock w) (storage_ok w) (disk w) (requests w ++ [season]))
        else
          (Raise e,
           mkWorld (heap w) (next_ref w) (g_combined_df w) (stdout w) (clock w)
                   (storage_ok w) (disk w) (requests w ++ [season]))
    end.
Proof.
  unfold fetch_nba_team_stats_body, try_except, bind, provider_call.
  destruct (provider season) as [data|e]; simpl.
  - rewrite alter_insert_eq. reflexivity.
  - destruct (is_Exception e); reflexivity.
Qed.

Lemma fetch_run (provider : string -> result DataFrame)
  (season : string) (w : world) :
  storage_ok w = true ->
  fetch_nba_team_stats provider season w
  = match cached (clock w) (disk w) season with
    | Some v => alloc v w
    | None =>
        match provider season with
        | Ok data =>
            (Ok (next_ref w),
             mkWorld (<[next_ref w := lower_columns data]> (heap w))
                     (S (next_ref w)) (g_combined_df w) (stdout w) (clock w)
                     true
                     (<[season := mkEntry (lower_columns data)
                                          (Some (clock w + 3600)%float)]>
                        (disk w))
                     (requests w ++ [season]))
        | Raise e =>
            if is_Exception e then
              (Ok (next_ref w),
               mkWorld (<[next_ref w := empty_frame]> (heap w))
                       (S (next_ref w)) (g_combined_df w)
                       (stdout w ++ [Line ("Error fetching data for season "
                                           +:+ season +:+ ": " +:+ exn_str e)])
                       (clock w) true
                       (<[season := mkEntry empty_frame
                                            (Some (clock w + 3600)%float)]>
                          (disk w))
                       (requests w ++ [season]))
            else
              (Raise e,
               mkWorld (heap w) (next_ref w) (g_combined_df w) (stdout w)
                       (clock w) true (disk w) (requests w ++ [season]))
        end
    end.
Proof.
  intros Hok. unfold fetch_nba_team_stats, memoize, bind at 1, cache_get.
  rewrite Hok. destruct (cached (clock w) (disk w) season) as [v|];
    [reflexivity|].
  unfold bind. rewrite fetch_body_run.
  destruct (provider season) as [data|e].
  - unfold deref. simpl. rewrite lookup_insert_eq.
    unfold cache_set. simpl. rewrite Hok. reflexivity.
  - destruct (is_Exception e).
    + unfold deref. simpl. rewrite lookup_insert_eq.
      unfold cache_set. simpl. rewrite Hok. reflexivity.
    + rewrite Hok. reflexivity.
Qed.

(** Without storage the memoised fetcher raises at once. *)
Lemma fetch_without_storage (provider : string -> result DataFrame)
  (season : string) (w : world) :
  storage_ok w = false ->
  fetch_nba_team_stats provider season w = (Raise storage_error, w).
Proof.
  intros Hno. unfold fetch_nba_team_stats, memoize, bind, cache_get.
  rewrite Hno. reflexivity.
Qed.


(** ** The cache *)




(** C7, as the script behaves: without cache storage the script stops on
    the error raised when the cache is opened, before any fetch, and the
    memoised fetcher raises the storage error without calling the
    provider; nothing falls back to fetching uncached. *)
Theorem C7_no_fallback (provider : string -> result DataFrame)
  (seasons : list string) (w : world) :
  storage_ok w = false ->
  script_on provider seasons w = (Raise storage_error, w) /\
  forall season,
    fetch_nba_team_stats provider season w = (Raise storage_error, w).
Proof.
  intros Hno. split.
  - unfold script_on, bind, open_cache. rewrite Hno. reflexivity.
  - intros season. apply fetch_without_storage. exact Hno.
Qed.

Lemma C7_no_fallback_witness :
  let w := fresh_world 0 false in
  script_on example_provider seasons w = (Raise storage_error, w) /\
  forall season,
    fetch_nba_team_stats example_provider season w = (Raise storage_error, w).
Proof. intros w. apply (C7_no_fallback example_provider seasons w). reflexivity. Defined.

(** With storage the script builds the table and serves; without it the
    same script on the same provider ends in an exception and has asked the
    provider nothing. *)
Lemma C7_counterexample :
  (exists l, (script example_provider (fresh_world 0 true)).1 = Ok (Serving l)) /\
  (script example_provider (fresh_world 0 false)).1 = Raise storage_error /\
  requests (script example_provider (fresh_world 0 false)).2 = [].
Proof.
  split; [eexists; vm_compute; reflexivity|].
  split; vm_compute; reflexivity.
Qed.

(** ** The aggregation loop *)

Lemma cached_ext (now : float) (d d' : gmap string cache_entry)
  (key : string) :
  d !! key = d' !! key -> cached now d key = cached now d' key.
Proof. unfold cached. intros ->. reflexivity. Qed.

(** What one memoised fetch does to the world, hit or miss. *)
Lemma fetch_effect (provider : string -> result DataFrame)
  (season : string) (w : world) :
  storage_ok w = true ->
  (forall e, provider season = Raise e -> is_Exception e = true) ->
  exists w',
    fetch_nba_team_stats provider season w = (Ok (next_ref w), w') /\
    heap w'
    = <[next_ref w := fetched provider (clock w) (disk w) season]> (heap w) /\
    next_ref w' = S (next_ref w) /\
    g_combined_df w' = g_combined_df w /\
    clock w' = clock w /\
    storage_ok w' = true /\
    (forall k, k <> season -> disk w' !! k = disk w !! k).
Proof.
  intros Hok Hexn. rewrite (fetch_run provider season w Hok).
  unfold fetched, fresh_table.
  destruct (cached (clock w) (disk w) season) as [v|].
  - eexists. split; [reflexivity|]. simpl. auto 10.
  - destruct (provider season) as [data|e] eqn:Hp.
    + eexists. split; [reflexivity|]. simpl.
      repeat split; auto. intros k Hk. apply lookup_insert_ne. congruence.
    + rewrite (Hexn e eq_refl). eexists. split; [reflexivity|]. simpl.
      repeat split; auto. intros k Hk. apply lookup_insert_ne. congruence.
Qed.

Lemma fetch_seasons_run (provider : string -> result DataFrame)
  (d : gmap string cache_entry) (todo : list string) :
  forall (acc : list nat) (done : list DataFrame) (w : world),
    NoDup todo ->
    storage_ok w = true ->
    (forall s e, In s todo -> provider s = Raise e -> is_Exception e = true) ->
    (forall s, In s todo -> disk w !! s = d !! s) ->
    Forall2 (fun r f => (r < next_ref w)%nat /\ heap w !! r = Some f) acc done ->
    exists refs w',
      fetch_seasons provider todo acc w = (Ok (acc ++ refs), w') /\
      Forall2 (fun r f => heap w' !! r = Some f) (acc ++ refs)
              (done ++ List.map stamp
                         (kept_tables (fetched_tables provider d (clock w) todo))) /\
      g_combined_df w' = g_combined_df w /\
      storage_ok w' = true.
Proof.
  induction todo as [|s todo IH]; intros acc done w Hnd Hok Hexn Hdisk Hacc.
  - exists [], w. simpl. rewrite !app_nil_r.
    split; [reflexivity|]. split; [|auto].
    eapply Forall2_impl; [exact Hacc|]. intros r f [_ H]. exact H.
  - apply NoDup_cons in Hnd as [Hs Hnd].
    simpl fetch_seasons. unfold bind at 1, print, emit.
    set (wp := mkWorld _ _ _ _ _ _ _ _).
    destruct (fetch_effect provider s wp) as
      (w1 & Hrun & Hheap & Hnext & Hglob & Hclock & Hok1 & Hdisk1).
    { exact Hok. }
    { intros e. apply Hexn. left. reflexivity. }
    unfold bind at 1. rewrite Hrun.
    unfold bind at 1, deref. rewrite Hheap, lookup_insert_eq.
    change (next_ref wp) with (next_ref w) in *.
    change (heap wp) with (heap w) in *.
    change (clock wp) with (clock w) in *.
    change (disk wp) with (disk w) in *.
    change (g_combined_df wp) with (g_combined_df w) in *.
    assert (Hfetched : fetched provider (clock w) (disk w) s
                       = fetched provider (clock w) d s).
    { unfold fetched. rewrite (cached_ext _ (disk w) d); [reflexivity|].
      apply Hdisk. left. reflexivity. }
    rewrite Hfetched in *.
    set (v := fetched provider (clock w) d s) in *.
    assert (Hrest : forall s', In s' todo -> disk w1 !! s' = d !! s').
    { intros s' Hin. rewrite Hdisk1.
      - apply Hdisk. right. exact Hin.
      - intros ->. apply Hs. apply list_elem_of_In. exact Hin. }
    simpl fetched_tables. unfold kept_tables. simpl List.filter.
    fold (kept_tables (fetched_tables provider d (clock w + 2)%float todo)).
    fold v.
    destruct (df_empty v) eqn:Hempty; simpl negb; cbv iota.
    + unfold bind at 1, ret. unfold bind at 1, sleep.
      set (w2 := mkWorld _ _ _ _ _ _ _ _).
      destruct (IH acc done w2) as (refs & w' & Hloop & Hall & Hg & Hok').
      * exact Hnd.
      * exact Hok1.
      * intros s' e Hin. apply Hexn. right. exact Hin.
      * exact Hrest.
      * simpl. rewrite Hheap, Hnext. eapply Forall2_impl; [exact Hacc|].
        intros r f [Hr Hf]. split; [lia|].
        rewrite lookup_insert_ne by lia. exact Hf.
      * exists refs, w'. split; [exact Hloop|].
        split; [|split; [rewrite Hg; exact Hglob|exact Hok']].
        replace (clock w2) with (clock w + 2)%float in Hall
          by (simpl; rewrite Hclock; reflexivity).
        exact Hall.
    + unfold bind at 1. unfold bind at 1, update, ret.
      unfold bind at 1, sleep.
      set (w2 := mkWorld _ _ _ _ _ _ _ _).
      destruct (IH (acc ++ [next_ref w]) (done ++ [stamp (s, v)]) w2)
        as (refs & w' & Hloop & Hall & Hg & Hok').
      * exact Hnd.
      * exact Hok1.
      * intros s' e Hin. apply Hexn. right. exact Hin.
      * exact Hrest.
      * simpl. rewrite Hheap, Hnext, alter_insert_eq. apply Forall2_app.
        -- eapply Forall2_impl; [exact Hacc|].
           intros r f [Hr Hf]. split; [lia|].
           rewrite lookup_insert_ne by lia. exact Hf.
        -- constructor; [|constructor]. split; [lia|].
           rewrite lookup_insert_eq. reflexivity.
      * exists (next_ref w :: refs), w'.
        replace (clock w2) with (clock w + 2)%float in Hall
          by (simpl; rewrite Hclock; reflexivity).
        rewrite <- (app_assoc acc) in Hloop.
        rewrite <- (app_assoc acc), <- (app_assoc done) in Hall.
        cbn [app] in Hloop, Hall.
        split; [exact Hloop|].
        split; [|split; [rewrite Hg; exact Hglob|exact Hok']].
        exact Hall.
Qed.

Lemma deref_all_run (refs : list nat) (frames : list DataFrame) (w : world) :
  Forall2 (fun r f => heap w !! r = Some f) refs frames ->
  deref_all refs w = (Ok frames, w).
Proof.
  induction 1 as [|r f refs frames Hr _ IH]; [reflexivity|].
  simpl. unfold bind at 1, deref. rewrite Hr.
  unfold bind at 1. rewrite IH. reflexivity.
Qed.

Lemma head_last_nonempty (l : list string) :
  l <> [] -> exists a b, head l = Some a /\ last l = Some b.
Proof.
  intros Hne. destruct l as [|a l]; [congruence|].
  exists a. destruct (last (a :: l)) as [b|] eqn:Hl; [eauto|].
  apply last_None in Hl. discriminate.
Qed.

(** What [main] does, for seasons without repetition, working storage and
    a provider that answers or fails with an error: with no table kept it
    prints its message and binds nothing; otherwise it binds [combined_df]
    to the concatenation of the stamped tables. *)
Lemma main_on_run (provider : string -> result DataFrame)
  (seasons : list string) (w : world) :
  seasons <> [] ->
  NoDup seasons ->
  storage_ok w = true ->
  (forall s e, In s seasons -> provider s = Raise e -> is_Exception e = true) ->
  exists w',
    main_on provider seasons w = (Ok tt, w') /\
    storage_ok w' = true /\
    match kept_tables (fetched_tables provider (disk w) (clock w) seasons) with
    | [] =>
        g_combined_df w' = g_combined_df w /\
        last (stdout w') = Some (Line "No data fetched.")
    | kept =>
        exists r df,
          g_combined_df w' = Some (PyFrame r) /\
          heap w' !! r = Some df /\
          concat_ignore_index (List.map stamp kept) = Ok df
    end.
Proof.
  intros Hne Hnd Hok Hexn.
  destruct (head_last_nonempty seasons Hne) as (a & b & Ha & Hb).
  unfold main_on. rewrite Ha, Hb.
  unfold bind at 1, print, emit.
  set (wp := mkWorld _ _ _ _ _ _ _ _).
  destruct (fetch_seasons_run provider (disk w) seasons [] [] wp)
    as (refs & w1 & Hloop & Hall & Hg & Hok1); auto.
  cbn [app] in Hloop, Hall.
  unfold bind at 1. rewrite Hloop.
  change (clock wp) with (clock w) in Hall.
  change (g_combined_df wp) with (g_combined_df w) in Hg.
  destruct (kept_tables (fetched_tables provider (disk w) (clock w) seasons))
    as [|p kept] eqn:Hkept.
  - apply Forall2_nil_inv_r in Hall. subst refs.
    eexists. split; [reflexivity|]. simpl.
    split; [exact Hok1|]. split; [exact Hg|]. apply last_snoc.
  - destruct refs as [|r refs]; [inversion Hall|].
    unfold bind at 1. rewrite (deref_all_run _ _ _ Hall).
    unfold bind at 1, lift.
    simpl concat_ignore_index.
    eexists. split; [reflexivity|]. simpl.
    split; [exact Hok1|].
    eexists _, _. split; [reflexivity|].
    split; [apply lookup_insert_eq|reflexivity].
Qed.





(** ** Starting the dashboard *)

(** C1, as the script behaves: when no season yields a table, [main]
    prints "No data fetched." and binds nothing, and the test of
    [combined_df] on line 75 raises a [NameError]; the branch that reports
    the missing data is not reached. *)
Theorem C1_no_data_name_error (provider : string -> result DataFrame)
  (seasons : list string) (w : world) :
  seasons <> [] ->
  NoDup seasons ->
  storage_ok w = true ->
  (forall s e, In s seasons -> provider s = Raise e -> is_Exception e = true) ->
  g_combined_df w = None ->
  kept_tables (fetched_tables provider (disk w) (clock w) seasons) = [] ->
  exists w',
    script_on provider seasons w = (Raise (NameError "combined_df"), w') /\
    last (stdout w') = Some (Line "No data fetched.").
Proof.
  intros Hne Hnd Hok Hexn Hglob Hkept.
  destruct (main_on_run provider seasons w) as (w' & Hrun & _ & Hres); auto.
  rewrite Hkept in Hres. destruct Hres as [Hg Hlast].
  exists w'. split; [|exact Hlast].
  unfold script_on. unfold bind at 1, open_cache. rewrite Hok.
  unfold bind at 1. rewrite Hrun.
  unfold bind, load_combined_df. rewrite Hg, Hglob. reflexivity.
Qed.

(** The provider is down for all 35 seasons. *)
Lemma C1_no_data_name_error_witness :
  exists w',
    script failing_provider (fresh_world 0 true)
    = (Raise (NameError "combined_df"), w') /\
    last (stdout w') = Some (Line "No data fetched.").
Proof.
  apply (C1_no_data_name_error failing_provider seasons (fresh_world 0 true)).
  - vm_compute. discriminate.
  - apply (bool_decide_unpack (NoDup seasons)). vm_compute. reflexivity.
  - reflexivity.
  - intros s e _ H. inversion H. reflexivity.
  - reflexivity.
  - vm_compute. reflexivity.
Defined.

(** ** The per-game charts *)

Lemma col_pos_app_old (c : string) (cols more : list string) (q : nat) :
  col_pos c cols = Some q -> col_pos c (cols ++ more) = Some q.
Proof.
  revert q. induction cols as [|x cols IH]; intros q Hq; [discriminate|].
  simpl in *. destruct (String.eqb c x); [exact Hq|].
  destruct (col_pos c cols) as [q'|]; [|discriminate].
  rewrite (IH q' eq_refl). exact Hq.
Qed.

Lemma put_column_values (p : nat) (vs : list cell) (rs : list (Z * list cell)) :
  length vs = length rs -> s_values (col_of p (put_column p vs rs)) = vs.
Proof.
  revert vs. induction rs as [|r rs IH]; intros [|v vs] Hlen;
    try discriminate; [reflexivity|].
  simpl. rewrite cell_at_put_cell. f_equal. apply IH.
  simpl in Hlen. lia.
Qed.

Lemma put_column_other (p q : nat) (vs : list cell)
  (rs : list (Z * list cell)) :
  p <> q -> col_of q (put_column p vs rs) = col_of q rs.
Proof.
  intros Hne. revert vs. induction rs as [|r rs IH]; intros vs;
    [destruct vs; reflexivity|].
  destruct vs as [|v vs]; simpl; rewrite cell_at_put_cell_ne by exact Hne;
    rewrite IH; reflexivity.
Qed.

Lemma setitem_series_get_out (df : DataFrame) (out : string) (q : Series) :
  length q = nrows df ->
  exists s, getitem (setitem_series df out q) out = Ok s /\
            s_values s = s_values q.
Proof.
  intros Hlen. unfold setitem_series, getitem.
  assert (Hl : length (s_values q) = length (rows df))
    by (unfold s_values; rewrite List.length_map; exact Hlen).
  destruct (col_pos out (columns df)) as [p|] eqn:Hp; simpl.
  - rewrite Hp. eexists. split; [reflexivity|].
    apply put_column_values. exact Hl.
  - rewrite (col_pos_app_new _ _ Hp). eexists. split; [reflexivity|].
    apply put_column_values. exact Hl.
Qed.

Lemma setitem_series_get_other (df : DataFrame) (out c : string)
  (q s : Series) :
  c <> out -> getitem df c = Ok s ->
  getitem (setitem_series df out q) c = Ok s.
Proof.
  intros Hne Hs. apply getitem_inv in Hs as (pc & Hpc & ->).
  unfold setitem_series, getitem.
  destruct (col_pos out (columns df)) as [p|] eqn:Hp; simpl.
  - rewrite Hpc. f_equal. apply put_column_other. intros ->.
    apply col_pos_lookup in Hp, Hpc. congruence.
  - rewrite (col_pos_app_old _ _ _ _ Hpc). f_equal.
    apply put_column_other. intros <-.
    apply col_pos_lookup, lookup_lt_Some in Hpc. lia.
Qed.

Lemma series_div_length (a b q : Series) :
  series_div a b = Ok q -> length a = length b -> length q = length a.
Proof.
  revert b q. induction a as [|[i x] a IH]; intros [|[j y] b] q H Hlen;
    simpl in *; try discriminate.
  - inversion H. reflexivity.
  - destruct (cell_div x y) as [v|]; [|discriminate].
    destruct (series_div a b) as [s|] eqn:Hs; [|discriminate].
    inversion H. simpl. f_equal. apply (IH b s Hs). lia.
Qed.

(** Every position of the quotient holds the float64 quotient of the two
    cells at that position. *)
Lemma series_div_values (a b q : Series) :
  series_div a b = Ok q ->
  forall i x y, s_values a !! i = Some x -> s_values b !! i = Some y ->
    exists nx ny, to_float x = Some nx /\ to_float y = Some ny /\
                  s_values q !! i = Some (CFloat (nx / ny)).
Proof.
  revert b q. induction a as [|[l x0] a IH]; intros [|[l' y0] b] q H i x y Hx Hy;
    simpl in *; try (destruct i; discriminate).
  destruct (cell_div x0 y0) as [v|] eqn:Hv; [|discriminate].
  destruct (series_div a b) as [s|] eqn:Hs; [|discriminate].
  inversion H; subst q. destruct i as [|i]; simpl in *.
  - inversion Hx; inversion Hy; subst. unfold cell_div in Hv.
    destruct (to_float x) as [nx|]; [|discriminate].
    destruct (to_float y) as [ny|]; [|discriminate].
    inversion Hv. eauto.
  - eapply IH; eauto.
Qed.

(** Dividing by zero gives no finite number. *)
Lemma float_div_zero (x : float) :
  (x / 0 = nan \/ x / 0 = infinity \/ x / 0 = neg_infinity)%float.
Proof.
  pose proof (FloatAxioms.div_spec x 0%float) as H.
  change (Prim2SF 0%float) with (S754_zero false) in H.
  rewrite <- (SF2Prim_Prim2SF (x / 0)%float), H.
  destruct (Prim2SF x) as [s|s| |s m e]; simpl; auto;
    destruct s; simpl; auto.
Qed.

Lemma select_eq_inv (df f : DataFrame) (c s : string) :
  select_eq df c s = Ok f ->
  columns f = columns df /\
  exists p, col_pos c (columns df) = Some p /\
            rows f = List.filter (fun r => cell_eq_str (cell_at p r.2) s)
                                 (rows df).
Proof.
  unfold select_eq. destruct (col_pos c (columns df)) as [p|]; [|discriminate].
  intros H. inversion H. simpl. eauto.
Qed.

(** A per-game chart, when the selection has the columns it needs and
    their cells are numbers: the team names against the quotients. *)
Lemma per_game_graph_run (num out title sel : string) (w : world) (r : nat)
  (df f : DataFrame) (names a b q : Series) :
  g_combined_df w = Some (PyFrame r) ->
  heap w !! r = Some df ->
  select_eq df "season" sel = Ok f ->
  getitem f "team_name" = Ok names ->
  getitem f num = Ok a ->
  getitem f "gp" = Ok b ->
  series_div a b = Ok q ->
  out <> "team_name" ->
  exists ys,
    (per_game_graph num out title sel w).1
    = Ok (mkFig (title +:+ sel) (s_values names) ys) /\
    ys = s_values q /\ length ys = nrows f.
Proof.
  intros Hg Hr Hsel Hn Ha Hb Hq Hout.
  assert (Hlen : length q = nrows f).
  { rewrite (series_div_length a b q Hq).
    - apply getitem_inv in Ha as (p & _ & ->). apply length_col_of.
    - apply getitem_inv in Ha as (p & _ & ->).
      apply getitem_inv in Hb as (p' & _ & ->).
      rewrite !length_col_of. reflexivity. }
  destruct (setitem_series_get_out f out q Hlen) as (s & Hs & Hvals).
  pose proof (setitem_series_get_other f out "team_name" q names
                (not_eq_sym Hout) Hn) as Hnames.
  exists (s_values q). split; [|split; [reflexivity|]].
  2:{ unfold s_values. rewrite List.length_map. exact Hlen. }
  unfold per_game_graph, combined_frame.
  unfold bind at 1. unfold bind at 1, load_combined_df. rewrite Hg.
  unfold deref at 1. rewrite Hr.
  unfold bind at 1, lift at 1. rewrite Hsel.
  unfold bind at 1, alloc at 1.
  unfold bind at 1, deref at 1. simpl heap. rewrite lookup_insert_eq.
  unfold bind at 1, alloc at 1.
  unfold bind at 1, deref at 1. simpl heap. simpl next_ref.
  rewrite lookup_insert_eq.
  unfold bind at 1, lift at 1. rewrite Ha.
  unfold bind at 1, lift at 1. rewrite Hb.
  unfold bind at 1, lift at 1. rewrite Hq.
  unfold bind at 1, update.
  unfold bind at 1, deref at 1. simpl heap.
  rewrite lookup_alter_eq, lookup_insert_eq. simpl.
  unfold px_figure. rewrite Hnames, Hs, Hvals. reflexivity.
Qed.

Lemma per_game_graph_zero (num out title sel : string) (w : world) (r : nat)
  (df f : DataFrame) (names a b q : Series) :
  g_combined_df w = Some (PyFrame r) ->
  heap w !! r = Some df ->
  select_eq df "season" sel = Ok f ->
  getitem f "team_name" = Ok names ->
  getitem f num = Ok a ->
  getitem f "gp" = Ok b ->
  series_div a b = Ok q ->
  out <> "team_name" ->
  exists fig,
    (per_game_graph num out title sel w).1 = Ok fig /\
    fig_x fig = s_values names /\
    length (fig_y fig) = nrows f /\
    (forall i x g, s_values a !! i = Some x -> s_values b !! i = Some g ->
       exists nx ng, to_float x = Some nx /\ to_float g = Some ng /\
                     fig_y fig !! i = Some (CFloat (nx / ng))) /\
    (forall i, s_values b !! i = Some (CInt 0) ->
       exists v, fig_y fig !! i = Some (CFloat v) /\ nan_or_infinite v).
Proof.
  intros Hg Hr Hsel Hn Ha Hb Hq Hout.
  destruct (per_game_graph_run num out title sel w r df f names a b q)
    as (ys & Hrun & -> & Hlen); auto.
  eexists. split; [exact Hrun|]. simpl.
  split; [reflexivity|]. split; [exact Hlen|].
  split; [exact (series_div_values a b q Hq)|].
  intros i Hi.
  assert (Hx : exists x, s_values a !! i = Some x).
  { apply lookup_lt_is_Some. apply lookup_lt_Some in Hi.
    apply getitem_inv in Ha as (p & _ & ->).
    apply getitem_inv in Hb as (p' & _ & ->).
    unfold s_values in *. rewrite List.length_map, length_col_of in *.
    exact Hi. }
  destruct Hx as [x Hx].
  destruct (series_div_values a b q Hq i x (CInt 0) Hx Hi)
    as (nx & ng & _ & Hng & Hv).
  inversion Hng; subst ng.
  exists (nx / 0)%float. split; [exact Hv|]. apply float_div_zero.
Qed.

(** C8, as the script computes: the two per-game charts divide on every
    row of the selected season without a guard.  No row is skipped: the
    chart has one value per row of the season, the float64 quotient of the
    row's numerator by its games played; for a row with zero games played
    that quotient is NaN or an infinity, never a marker. *)
Theorem C8_unguarded_division (sel : string) (w : world) (r : nat)
  (df f : DataFrame) (names pts fg3m gp ppg tpg : Series) :
  g_combined_df w = Some (PyFrame r) ->
  heap w !! r = Some df ->
  select_eq df "season" sel = Ok f ->
  getitem f "team_name" = Ok names ->
  getitem f "pts" = Ok pts ->
  getitem f "fg3m" = Ok fg3m ->
  getitem f "gp" = Ok gp ->
  series_div pts gp = Ok ppg ->
  series_div fg3m gp = Ok tpg ->
  exists points threes,
    (update_points_graph sel w).1 = Ok points /\
    (update_threes_graph sel w).1 = Ok threes /\
    length (fig_y points) = nrows f /\
    length (fig_y threes) = nrows f /\
    (forall i x g, s_values pts !! i = Some x -> s_values gp !! i = Some g ->
       exists nx ng, to_float x = Some nx /\ to_float g = Some ng /\
                     fig_y points !! i = Some (CFloat (nx / ng))) /\
    (forall i x g, s_values fg3m !! i = Some x -> s_values gp !! i = Some g ->
       exists nx ng, to_float x = Some nx /\ to_float g = Some ng /\
                     fig_y threes !! i = Some (CFloat (nx / ng))) /\
    (forall i, s_values gp !! i = Some (CInt 0) ->
       exists v1 v2,
         fig_y points !! i = Some (CFloat v1) /\ nan_or_infinite v1 /\
         fig_y threes !! i = Some (CFloat v2) /\ nan_or_infinite v2).
Proof.
  intros Hg Hr Hsel Hn Hp Hm Hgp Hq1 Hq2.
  destruct (per_game_graph_zero "pts" "pts_per_g" "Team Points Per Game - "
              sel w r df f names pts gp ppg Hg Hr Hsel Hn Hp Hgp Hq1
              ltac:(discriminate))
    as (points & Hrun1 & _ & Hlen1 & Hval1 & Hz1).
  destruct (per_game_graph_zero "fg3m" "fg3_per_g"
              "Team Three Pointers Made Per Game - "
              sel w r df f names fg3m gp tpg Hg Hr Hsel Hn Hm Hgp Hq2
              ltac:(discriminate))
    as (threes & Hrun2 & _ & Hlen2 & Hval2 & Hz2).
  exists points, threes.
  split; [exact Hrun1|]. split; [exact Hrun2|].
  split; [exact Hlen1|]. split; [exact Hlen2|].
  split; [exact Hval1|]. split; [exact Hval2|].
  intros i Hi.
  destruct (Hz1 i Hi) as (v1 & H1 & Hn1).
  destruct (Hz2 i Hi) as (v2 & H2 & Hn2).
  exists v1, v2. auto.
Qed.

Lemma C8_unguarded_division_witness :
  exists points threes,
    (update_points_graph "2023-24" served_world).1 = Ok points /\
    (update_threes_graph "2023-24" served_world).1 = Ok threes /\
    length (fig_y points) = 3%nat /\
    length (fig_y threes) = 3%nat /\
    exists v1 v2,
      fig_y points !! 2%nat = Some (CFloat v1) /\ nan_or_infinite v1 /\
      fig_y threes !! 2%nat = Some (CFloat v2) /\ nan_or_infinite v2.
Proof.
  destruct (C8_unguarded_division "2023-24" served_world 2 served_table
              served_selection
              (served_column "team_name") (served_column "pts")
              (served_column "fg3m") (served_column "gp")
              (result_or [] (series_div (served_column "pts")
                                        (served_column "gp")))
              (result_or [] (series_div (served_column "fg3m")
                                        (served_column "gp"))))
    as (points & threes & H1 & H2 & L1 & L2 & _ & _ & Hz);
    try (vm_compute; reflexivity).
  exists points, threes.
  split; [exact H1|]. split; [exact H2|].
  split; [exact L1|]. split; [exact L2|].
  apply (Hz 2%nat). vm_compute. reflexivity.
Defined.

(** The Pistons have played no game: their row is charted all the same,
    with NaN as its value; and 82 points in zero games chart as infinity. *)
Lemma C8_counterexample :
  (exists points,
     (update_points_graph "2023-24" served_world).1 = Ok points /\
     fig_x points !! 2%nat = Some (CStr "Pistons") /\
     fig_y points !! 2%nat = Some (CFloat nan)) /\
  (exists threes,
     (update_threes_graph "2023-24" served_world).1 = Ok threes /\
     fig_x threes !! 2%nat = Some (CStr "Pistons") /\
     fig_y threes !! 2%nat = Some (CFloat nan)) /\
  cell_div (CInt 82) (CInt 0) = Ok (CFloat infinity).
Proof.
  split; [eexists; vm_compute; auto|].
  split; [eexists; vm_compute; auto|].
  vm_compute. reflexivity.
Qed.

(** ** The queries leave the combined table alone *)

(** A query that stops on an exception leaves the world it reached. *)
Ltac stopped_early :=
  let H := fresh "H" in
  intros H; inversion H; subst; split; assumption.

Lemma per_game_graph_untouched (num out title sel : string) (w : world)
  (r : nat) (df : DataFrame) :
  g_combined_df w = Some (PyFrame r) ->
  heap w !! r = Some df ->
  (r < next_ref w)%nat ->
  untouched r df (per_game_graph num out title sel w).2.
Proof.
  intros Hg Hr Hlt.
  destruct (per_game_graph num out title sel w) as [res w'] eqn:Hrun.
  simpl. revert Hrun. unfold per_game_graph, combined_frame.
  unfold bind at 1. unfold bind at 1, load_combined_df. rewrite Hg.
  unfold deref at 1. rewrite Hr.
  unfold bind at 1, lift at 1.
  destruct (select_eq df "season" sel) as [f|e];
    [|stopped_early].
  unfold bind at 1, alloc at 1.
  unfold bind at 1, deref at 1. simpl heap. rewrite lookup_insert_eq.
  unfold bind at 1, alloc at 1.
  unfold bind at 1, deref at 1. simpl heap. simpl next_ref.
  rewrite lookup_insert_eq.
  assert (Hkeep : <[S (next_ref w) := f]> (<[next_ref w := f]> (heap w)) !! r
                  = Some df).
  { rewrite !lookup_insert_ne by lia. exact Hr. }
  unfold bind at 1, lift at 1.
  destruct (getitem f num) as [a|e];
    [|stopped_early].
  unfold bind at 1, lift at 1.
  destruct (getitem f "gp") as [b|e];
    [|stopped_early].
  unfold bind at 1, lift at 1.
  destruct (series_div a b) as [q|e];
    [|stopped_early].
  unfold bind at 1, update.
  unfold bind at 1, deref at 1. simpl heap.
  rewrite lookup_alter_eq, lookup_insert_eq.
  unfold lift. cbn [fmap option_fmap option_map].
  intros H; inversion H; subst; split; [assumption|].
  simpl. rewrite lookup_alter_ne by lia. exact Hkeep.
Qed.

(** C9: a query of the dashboard (the two per-game charts, the league
    trend, the CSV export) leaves [combined_df] bound to the same object
    and that object equal to what it was, whatever the selected season and
    whether the query returns or raises; the derived per-game columns are
    written to a copy. *)
Theorem C9_queries_do_not_mutate (w : world) (r : nat) (df : DataFrame)
  (selected_season : string) (n_clicks : option Z) :
  g_combined_df w = Some (PyFrame r) ->
  heap w !! r = Some df ->
  (r < next_ref w)%nat ->
  untouched r df (update_points_graph selected_season w).2 /\
  untouched r df (update_threes_graph selected_season w).2 /\
  untouched r df (update_threes_trend selected_season w).2 /\
  untouched r df (export_data n_clicks w).2.
Proof.
  intros Hg Hr Hlt.
  split; [apply per_game_graph_untouched; assumption|].
  split; [apply per_game_graph_untouched; assumption|].
  split.
  - unfold untouched, update_threes_trend, combined_frame, bind,
      load_combined_df, lift, ret.
    rewrite Hg. unfold deref. rewrite Hr.
    destruct (season_avg df); simpl; auto.
  - unfold untouched, export_data, combined_frame, bind, load_combined_df,
      ret.
    destruct n_clicks as [n|]; [|simpl; auto].
    destruct (n =? 0); [simpl; auto|].
    rewrite Hg. unfold deref. rewrite Hr. simpl. auto.
Qed.

(** In the served example the table has no per-game column before a
    query and none after it. *)
Lemma C9_queries_do_not_mutate_witness :
  (untouched 2 served_table (update_points_graph "2023-24" served_world).2 /\
   untouched 2 served_table (update_threes_graph "2023-24" served_world).2 /\
   untouched 2 served_table (update_threes_trend "2023-24" served_world).2 /\
   untouched 2 served_table (export_data (Some 1) served_world).2) /\
  columns served_table
  = ["team_name"; "gp"; "pts"; "fg3m"; "fg3a"; "season"].
Proof.
  split; [|reflexivity].
  apply (C9_queries_do_not_mutate served_world 2 served_table "2023-24"
                                  (Some 1)).
  - reflexivity.
  - reflexivity.
  - vm_compute. lia.
Defined.


(** * Further properties of the script *)

(** ** What a per-game chart returns *)

(** The result of a per-game chart is a function of the combined table,
    the selection and the two column names: the objects the query makes on
    its way do not show in it. *)
Lemma per_game_graph_result (num out title sel : string) (w : world)
  (r : nat) (df : DataFrame) :
  g_combined_df w = Some (PyFrame r) ->
  heap w !! r = Some df ->
  (per_game_graph num out title sel w).1
  = match select_eq df "season" sel with
    | Ok f =>
        match getitem f num with
        | Ok a =>
            match getitem f "gp" with
            | Ok b =>
                match series_div a b with
                | Ok q => px_figure (setitem_series f out q) "team_name" out
                                    (title +:+ sel)
                | Raise e => Raise e
                end
            | Raise e => Raise e
            end
        | Raise e => Raise e
        end
    | Raise e => Raise e
    end.
Proof.
  intros Hg Hr. unfold per_game_graph, combined_frame.
  unfold bind at 1. unfold bind at 1, load_combined_df. rewrite Hg.
  unfold deref at 1. rewrite Hr.
  unfold bind at 1, lift at 1.
  destruct (select_eq df "season" sel) as [f|e]; [|reflexivity].
  unfold bind at 1, alloc at 1.
  unfold bind at 1, deref at 1. simpl heap. rewrite lookup_insert_eq.
  unfold bind at 1, alloc at 1.
  unfold bind at 1, deref at 1. simpl heap. simpl next_ref.
  rewrite lookup_insert_eq.
  unfold bind at 1, lift at 1.
  destruct (getitem f num) as [a|e]; [|reflexivity].
  unfold bind at 1, lift at 1.
  destruct (getitem f "gp") as [b|e]; [|reflexivity].
  unfold bind at 1, lift at 1.
  destruct (series_div a b) as [q|e]; [|reflexivity].
  unfold bind at 1, update.
  unfold bind at 1, deref at 1. simpl heap.
  rewrite lookup_alter_eq, lookup_insert_eq. reflexivity.
Qed.

Lemma trend_result (sel : string) (w : world) (r : nat) (df : DataFrame) :
  g_combined_df w = Some (PyFrame r) ->
  heap w !! r = Some df ->
  (update_threes_trend sel w).1
  = match season_avg df with
    | Ok avg => Ok (mkFig "Evolution of NBA 3-Point Attempts Per Game"
                          (List.map (fun p => CStr p.1) avg)
                          (List.map snd avg))
    | Raise e => Raise e
    end.
Proof.
  intros Hg Hr.
  unfold update_threes_trend, combined_frame, bind, load_combined_df, lift,
    ret.
  rewrite Hg. unfold deref. rewrite Hr.
  destruct (season_avg df); reflexivity.
Qed.

Lemma export_result (n_clicks : option Z) (w : world) (r : nat)
  (df : DataFrame) :
  g_combined_df w = Some (PyFrame r) ->
  heap w !! r = Some df ->
  (export_data n_clicks w).1
  = match n_clicks with
    | Some n => if n =? 0 then Ok None
                else Ok (Some (to_csv_no_index df "nba_stats.csv"))
    | None => Ok None
    end.
Proof.
  intros Hg Hr. unfold export_data.
  destruct n_clicks as [n|]; [|reflexivity].
  destruct (n =? 0); [reflexivity|].
  unfold combined_frame, bind, load_combined_df, ret.
  rewrite Hg. unfold deref. rewrite Hr. reflexivity.
Qed.

Lemma trend_untouched (sel : string) (w : world) (r : nat) (df : DataFrame) :
  g_combined_df w = Some (PyFrame r) ->
  heap w !! r = Some df ->
  untouched r df (update_threes_trend sel w).2.
Proof.
  intros Hg Hr.
  unfold untouched, update_threes_trend, combined_frame, bind,
    load_combined_df, lift, ret.
  rewrite Hg. unfold deref. rewrite Hr.
  destruct (season_avg df); simpl; auto.
Qed.

Lemma export_untouched (clicked : option Z) (w : world) (r : nat)
  (df : DataFrame) :
  g_combined_df w = Some (PyFrame r) ->
  heap w !! r = Some df ->
  untouched r df (export_data clicked w).2.
Proof.
  intros Hg Hr.
  unfold untouched, export_data, combined_frame, bind, load_combined_df, ret.
  destruct clicked as [n|]; [|simpl; auto].
  destruct (n =? 0); [simpl; auto|].
  rewrite Hg. unfold deref. rewrite Hr. simpl. auto.
Qed.

Lemma same_answers_untouched (w w' : world) (r : nat) (df : DataFrame)
  (sel : string) (n_clicks : option Z) :
  g_combined_df w = Some (PyFrame r) ->
  heap w !! r = Some df ->
  untouched r df w' ->
  same_answers w w' sel n_clicks.
Proof.
  intros Hg Hr [Hg' Hr']. unfold same_answers.
  unfold update_points_graph, update_threes_graph.
  rewrite !(per_game_graph_result _ _ _ _ w' r df Hg' Hr').
  rewrite !(per_game_graph_result _ _ _ _ w r df Hg Hr).
  rewrite (trend_result sel w' r df Hg' Hr'), (trend_result sel w r df Hg Hr).
  rewrite (export_result _ w' r df Hg' Hr'), (export_result _ w r df Hg Hr).
  auto.
Qed.

(** X1: what a query answers depends on the combined table alone; after
    any query of the dashboard, with any selection, each of the four
    queries answers what it would have answered before it. *)
Theorem queries_are_repeatable (w : world) (r : nat) (df : DataFrame)
  (earlier later : string) (clicked n_clicks : option Z) :
  g_combined_df w = Some (PyFrame r) ->
  heap w !! r = Some df ->
  (r < next_ref w)%nat ->
  same_answers w (update_points_graph earlier w).2 later n_clicks /\
  same_answers w (update_threes_graph earlier w).2 later n_clicks /\
  same_answers w (update_threes_trend earlier w).2 later n_clicks /\
  same_answers w (export_data clicked w).2 later n_clicks.
Proof.
  intros Hg Hr Hlt.
  assert (Hp : forall num out title,
             untouched r df (per_game_graph num out title earlier w).2)
    by (intros; apply per_game_graph_untouched; assumption).
  split; [apply (same_answers_untouched w _ r df); auto; apply Hp|].
  split; [apply (same_answers_untouched w _ r df); auto; apply Hp|].
  split; apply (same_answers_untouched w _ r df); auto.
  - apply trend_untouched; assumption.
  - apply export_untouched; assumption.
Qed.

Lemma queries_are_repeatable_witness :
  same_answers served_world
               (update_points_graph "2023-24" served_world).2
               "2023-24" (Some 1) /\
  same_answers served_world
               (update_threes_graph "2023-24" served_world).2
               "2023-24" (Some 1) /\
  same_answers served_world
               (update_threes_trend "2023-24" served_world).2
               "2023-24" (Some 1) /\
  same_answers served_world
               (export_data (Some 1) served_world).2
               "2023-24" (Some 1).
Proof.
  apply (queries_are_repeatable served_world 2 served_table
           "2023-24" "2023-24" (Some 1) (Some 1)).
  - reflexivity.
  - reflexivity.
  - vm_compute. lia.
Defined.

(** ** Selections without rows, tables without columns *)

Lemma filter_none {A} (f : A -> bool) (l : list A) :
  Forall (fun x => f x = false) l -> List.filter f l = [].
Proof.
  induction 1 as [|x l Hx _ IH]; [reflexivity|].
  simpl. rewrite Hx. exact IH.
Qed.

Lemma per_game_graph_no_rows (num out title sel : string) (w : world)
  (r : nat) (df : DataFrame) (key_col : Series) :
  g_combined_df w = Some (PyFrame r) ->
  heap w !! r = Some df ->
  getitem df "season" = Ok key_col ->
  Forall (fun e => cell_eq_str e.2 sel = false) key_col ->
  In "team_name" (columns df) ->
  In num (columns df) ->
  In "gp" (columns df) ->
  out <> "team_name" ->
  (per_game_graph num out title sel w).1 = Ok (mkFig (title +:+ sel) [] []).
Proof.
  intros Hg Hr Hk Hnone Ht Hn Hgp Hout.
  rewrite (per_game_graph_result num out title sel w r df Hg Hr).
  apply getitem_inv in Hk as (ps & Hps & ->).
  assert (Hsel : select_eq df "season" sel = Ok (mkDF (columns df) [])).
  { unfold select_eq. rewrite Hps. f_equal. f_equal.
    apply filter_none. unfold col_of in Hnone.
    apply Forall_map in Hnone. exact Hnone. }
  rewrite Hsel.
  destruct (col_pos_In _ _ Hn) as [pn Hpn].
  destruct (col_pos_In _ _ Hgp) as [pg Hpg].
  destruct (col_pos_In _ _ Ht) as [pt Hpt].
  unfold getitem at 1. simpl. rewrite Hpn.
  unfold getitem at 1. simpl. rewrite Hpg. simpl.
  unfold px_figure, setitem_series, getitem. simpl.
  destruct (col_pos out (columns df)) as [po|] eqn:Hpo; simpl.
  - rewrite Hpt, Hpo. reflexivity.
  - rewrite (col_pos_app_old _ _ _ _ Hpt), (col_pos_app_new _ _ Hpo).
    reflexivity.
Qed.

(** X2: selecting a season that no row of the combined table carries
    raises nothing: both per-game charts come back without a bar, titled
    with the selection. *)
Theorem unknown_season_gives_empty_charts (sel : string) (w : world)
  (r : nat) (df : DataFrame) (key_col : Series) :
  g_combined_df w = Some (PyFrame r) ->
  heap w !! r = Some df ->
  getitem df "season" = Ok key_col ->
  Forall (fun e => cell_eq_str e.2 sel = false) key_col ->
  In "team_name" (columns df) ->
  In "pts" (columns df) ->
  In "fg3m" (columns df) ->
  In "gp" (columns df) ->
  (update_points_graph sel w).1
  = Ok (mkFig ("Team Points Per Game - " +:+ sel) [] []) /\
  (update_threes_graph sel w).1
  = Ok (mkFig ("Team Three Pointers Made Per Game - " +:+ sel) [] []).
Proof.
  intros Hg Hr Hk Hnone Ht Hp Hm Hgp. split.
  - apply (per_game_graph_no_rows _ _ _ _ w r df key_col);
      auto; discriminate.
  - apply (per_game_graph_no_rows _ _ _ _ w r df key_col);
      auto; discriminate.
Qed.

Lemma unknown_season_gives_empty_charts_witness :
  (update_points_graph "1989-90" served_world).1
  = Ok (mkFig "Team Points Per Game - 1989-90" [] []) /\
  (update_threes_graph "1989-90" served_world).1
  = Ok (mkFig "Team Three Pointers Made Per Game - 1989-90" [] []).
Proof.
  apply (unknown_season_gives_empty_charts "1989-90" served_world 2
           served_table (result_or [] (getitem served_table "season"))).
  - reflexivity.
  - reflexivity.
  - reflexivity.
  - repeat constructor.
  - vm_compute. tauto.
  - vm_compute. tauto.
  - vm_compute. tauto.
  - vm_compute. tauto.
Defined.






(** ** The format of a season identifier *)

Lemma four_digit_years_checked :
  forallb (fun y => String.eqb (season_of_year y) (yyyy_yy y)
                    && match season_year (season_of_year y) with
                       | Some y' => y' =? y
                       | None => false
                       end)
          four_digit_years = true.
Proof. vm_compute. reflexivity. Qed.

Lemma four_digit_years_In (y : Z) :
  1000 <= y <= 9998 -> In y four_digit_years.
Proof.
  intros Hy. unfold four_digit_years, Py.range.
  replace (Z.to_nat (range_len 1000 9999 1)) with (Z.to_nat 8999)
    by (vm_compute; reflexivity).
  apply in_map_iff. exists (Z.to_nat (y - 1000)). split; [lia|].
  apply in_seq. lia.
Qed.

(** X4: for every year from 1000 to 9998 the identifier built on line 47
    has the form "YYYY-YY" with the last two digits of the following year,
    and its first four characters read back as the year; identifiers of
    different years differ. *)
Theorem season_of_year_format (y y' : Z) :
  1000 <= y <= 9998 ->
  1000 <= y' <= 9998 ->
  season_of_year y = yyyy_yy y /\
  season_year (season_of_year y) = Some y /\
  (season_of_year y = season_of_year y' -> y = y').
Proof.
  assert (H : forall z, 1000 <= z <= 9998 ->
                        season_of_year z = yyyy_yy z /\
                        season_year (season_of_year z) = Some z).
  { intros z Hz.
    pose proof four_digit_years_checked as Hall.
    rewrite forallb_forall in Hall.
    specialize (Hall z (four_digit_years_In z Hz)).
    apply andb_true_iff in Hall as [Hf Hp].
    apply String.eqb_eq in Hf. split; [exact Hf|].
    destruct (season_year (season_of_year z)) as [z'|]; [|discriminate].
    apply Z.eqb_eq in Hp. congruence. }
  intros Hy Hy'. destruct (H y Hy) as [Hf Hp]. destruct (H y' Hy') as [_ Hp'].
  split; [exact Hf|]. split; [exact Hp|].
  intros Heq. rewrite Heq in Hp. congruence.
Qed.

(** The century is crossed with "00"; outside the range the form is lost. *)
Lemma season_of_year_format_witness :
  (season_of_year 1999 = yyyy_yy 1999 /\
   season_year (season_of_year 1999) = Some 1999 /\
   (season_of_year 1999 = season_of_year 2099 -> 1999 = 2099)) /\
  season_of_year 1999 = "1999-00" /\
  season_of_year 9999 = "9999-000" /\
  season_of_year 999 = "999-00".
Proof.
  split; [apply (season_of_year_format 1999 2099); lia|].
  repeat split; reflexivity.
Defined.

(** ** Requests and time spent by the loop *)

(** One memoised fetch, with what it asks of the provider. *)
Lemma fetch_accounting (provider : string -> result DataFrame)
  (season : string) (w : world) :
  storage_ok w = true ->
  (forall e, provider season = Raise e -> is_Exception e = true) ->
  exists w' v,
    fetch_nba_team_stats provider season w = (Ok (next_ref w), w') /\
    heap w' !! next_ref w = Some v /\
    clock w' = clock w /\
    storage_ok w' = true /\
    (forall k, k <> season -> disk w' !! k = disk w !! k) /\
    requests w'
    = requests w ++ match cached (clock w) (disk w) season with
                    | Some _ => []
                    | None => [season]
                    end.
Proof.
  intros Hok Hexn. rewrite (fetch_run provider season w Hok).
  destruct (cached (clock w) (disk w) season) as [v|].
  - eexists _, v. split; [reflexivity|]. simpl.
    rewrite lookup_insert_eq, app_nil_r. auto 10.
  - destruct (provider season) as [data|e] eqn:Hp.
    + eexists _, _. split; [reflexivity|]. simpl.
      rewrite lookup_insert_eq.
      repeat split; auto. intros k Hk. apply lookup_insert_ne. congruence.
    + rewrite (Hexn e eq_refl). eexists _, _. split; [reflexivity|]. simpl.
      rewrite lookup_insert_eq.
      repeat split; auto. intros k Hk. apply lookup_insert_ne. congruence.
Qed.

Lemma missed_ext (d d' : gmap string cache_entry) (now : float)
  (seasons : list string) :
  (forall s, In s seasons -> d !! s = d' !! s) ->
  missed d now seasons = missed d' now seasons.
Proof.
  revert now. induction seasons as [|s ss IH]; intros now H; [reflexivity|].
  simpl. rewrite (cached_ext now d d' s) by (apply H; left; reflexivity).
  rewrite IH by (intros s' Hs'; apply H; right; exact Hs').
  reflexivity.
Qed.

Lemma fetch_seasons_accounting (provider : string -> result DataFrame)
  (todo : list string) :
  forall (acc : list nat) (w : world),
    NoDup todo ->
    storage_ok w = true ->
    (forall s e, In s todo -> provider s = Raise e -> is_Exception e = true) ->
    exists refs w',
      fetch_seasons provider todo acc w = (Ok refs, w') /\
      clock w' = slept (length todo) (clock w) /\
      requests w' = requests w ++ missed (disk w) (clock w) todo.
Proof.
  induction todo as [|s todo IH]; intros acc w Hnd Hok Hexn.
  - exists acc, w. simpl. rewrite app_nil_r. auto.
  - apply NoDup_cons in Hnd as [Hs Hnd].
    simpl fetch_seasons. unfold bind at 1, print, emit.
    set (wp := mkWorld _ _ _ _ _ _ _ _).
    destruct (fetch_accounting provider s wp) as
      (w1 & v & Hrun & Hheap & Hclock & Hok1 & Hdisk1 & Hreq).
    { exact Hok. }
    { intros e. apply Hexn. left. reflexivity. }
    unfold bind at 1. rewrite Hrun.
    unfold bind at 1, deref. rewrite Hheap.
    change (clock wp) with (clock w) in *.
    change (disk wp) with (disk w) in *.
    change (requests wp) with (requests w) in *.
    assert (Hmissed : missed (disk w1) (clock w + 2)%float todo
                      = missed (disk w) (clock w + 2)%float todo).
    { apply missed_ext. intros s' Hin. apply Hdisk1.
      intros ->. apply Hs. apply list_elem_of_In. exact Hin. }
    assert (Hgoal : forall (acc' : list nat) (h : gmap nat DataFrame),
      exists refs w',
        fetch_seasons provider todo acc'
          (mkWorld h (next_ref w1) (g_combined_df w1) (stdout w1)
                   (clock w1 + 2)%float (storage_ok w1) (disk w1)
                   (requests w1))
        = (Ok refs, w') /\
        clock w' = slept (length (s :: todo)) (clock w) /\
        requests w' = requests w ++ missed (disk w) (clock w) (s :: todo)).
    { intros acc' h.
      destruct (IH acc' (mkWorld h (next_ref w1) (g_combined_df w1)
                                 (stdout w1) (clock w1 + 2)%float
                                 (storage_ok w1) (disk w1) (requests w1)))
        as (refs & w' & Hloop & Hc & Hr).
      - exact Hnd.
      - exact Hok1.
      - intros s' e Hin. apply Hexn. right. exact Hin.
      - exists refs, w'. split; [exact Hloop|].
        simpl in Hc, Hr. rewrite Hclock in Hc, Hr.
        split; [exact Hc|].
        rewrite Hr, Hreq, Hmissed. simpl missed.
        destruct (cached (clock w) (disk w) s);
          rewrite <- app_assoc; reflexivity. }
    destruct (df_empty v).
    + unfold bind at 1, ret. unfold bind at 1, sleep. apply Hgoal.
    + unfold bind at 1. unfold bind at 1, update, ret.
      unfold bind at 1, sleep. apply Hgoal.
Qed.

Lemma main_on_accounting (provider : string -> result DataFrame)
  (seasons : list string) (w : world) :
  seasons <> [] ->
  NoDup seasons ->
  storage_ok w = true ->
  (forall s e, In s seasons -> provider s = Raise e -> is_Exception e = true) ->
  exists w',
    main_on provider seasons w = (Ok tt, w') /\
    clock w' = slept (length seasons) (clock w) /\
    requests w' = requests w ++ missed (disk w) (clock w) seasons.
Proof.
  intros Hne Hnd Hok Hexn.
  destruct (main_on_run provider seasons w Hne Hnd Hok Hexn)
    as (w' & Hrun & _ & _).
  exists w'. split; [exact Hrun|].
  revert Hrun.
  destruct (head_last_nonempty seasons Hne) as (a & b & Ha & Hb).
  unfold main_on. rewrite Ha, Hb.
  unfold bind at 1, print, emit.
  set (wp := mkWorld _ _ _ _ _ _ _ _).
  destruct (fetch_seasons_accounting provider seasons [] wp Hnd Hok Hexn)
    as (refs & w1 & Hloop & Hc & Hr).
  change (clock wp) with (clock w) in *.
  change (disk wp) with (disk w) in *.
  change (requests wp) with (requests w) in *.
  unfold bind at 1. rewrite Hloop.
  destruct refs as [|r refs].
  - intros H. inversion H. simpl. auto.
  - unfold bind at 1.
    destruct (deref_all (r :: refs) w1) as [[frames|e] w2] eqn:Hd;
      [|discriminate].
    assert (Hw2 : w2 = w1).
    { clear -Hd. revert frames w2 Hd.
      generalize (r :: refs) as rs.
      induction rs as [|x rs IH]; intros frames w2 Hd.
      - inversion Hd. reflexivity.
      - simpl in Hd. unfold bind at 1, deref in Hd.
        destruct (heap w1 !! x); [|discriminate].
        unfold bind at 1 in Hd.
        destruct (deref_all rs w1) as [[fs|e] w3] eqn:E; [|discriminate].
        specialize (IH fs w3 eq_refl). inversion Hd. congruence. }
    subst w2.
    unfold bind at 1, lift.
    destruct (concat_ignore_index frames) as [df|e]; [|discriminate].
    intros H. inversion H. simpl. auto.
Qed.

(** X5: with working storage and a provider that answers or fails with
    an error, [main] sleeps two seconds after every season, whether its
    table came from the cache, from the provider or from a failure: the
    clock it leaves is the clock it found with 2.0 added once per season. *)
Theorem main_sleeps_once_per_season (provider : string -> result DataFrame)
  (seasons : list string) (w : world) :
  seasons <> [] ->
  NoDup seasons ->
  storage_ok w = true ->
  (forall s e, In s seasons -> provider s = Raise e -> is_Exception e = true) ->
  exists w',
    main_on provider seasons w = (Ok tt, w') /\
    clock w' = slept (length seasons) (clock w).
Proof.
  intros Hne Hnd Hok Hexn.
  destruct (main_on_accounting provider seasons w Hne Hnd Hok Hexn)
    as (w' & Hrun & Hc & _).
  exists w'. auto.
Qed.

Lemma main_sleeps_once_per_season_witness :
  exists w',
    main failing_provider (fresh_world 1000 true) = (Ok tt, w') /\
    clock w' = 1070%float.
Proof.
  destruct (main_sleeps_once_per_season failing_provider seasons
              (fresh_world 1000 true)) as (w' & Hrun & Hc).
  - vm_compute. discriminate.
  - apply (bool_decide_unpack (NoDup seasons)). vm_compute. reflexivity.
  - reflexivity.
  - intros s e _ H. inversion H. reflexivity.
  - exists w'. split; [exact Hrun|]. rewrite Hc. vm_compute. reflexivity.
Defined.

Lemma missed_cold (d : gmap string cache_entry) (now : float)
  (seasons : list string) :
  (forall s, In s seasons -> d !! s = None) -> missed d now seasons = seasons.
Proof.
  revert now. induction seasons as [|s ss IH]; intros now H; [reflexivity|].
  simpl. unfold cached. rewrite (H s) by (left; reflexivity).
  rewrite IH by (intros s' Hs'; apply H; right; exact Hs'). reflexivity.
Qed.

Lemma missed_sublist (d : gmap string cache_entry) (now : float)
  (seasons : list string) (s : string) :
  In s (missed d now seasons) -> In s seasons.
Proof.
  revert now. induction seasons as [|x ss IH]; intros now; [intros []|].
  simpl. destruct (cached now d x).
  - intros H. right. exact (IH _ H).
  - intros [->|H]; [left; reflexivity|right; exact (IH _ H)].
Qed.

Lemma missed_never_expires (d : gmap string cache_entry) (now : float)
  (seasons : list string) (s : string) (v : DataFrame) :
  d !! s = Some (mkEntry v None) -> ~ In s (missed d now seasons).
Proof.
  intros Hs. revert now.
  induction seasons as [|x ss IH]; intros now; [intros []|].
  simpl. destruct (cached now d x) eqn:Hc; [apply IH|].
  intros [->|Hin]; [|exact (IH _ Hin)].
  unfold cached in Hc. rewrite Hs in Hc. discriminate.
Qed.

Lemma missed_NoDup (d : gmap string cache_entry) (now : float)
  (seasons : list string) :
  NoDup seasons -> NoDup (missed d now seasons).
Proof.
  intros Hnd. revert now.
  induction seasons as [|s ss IH]; intros now; [constructor|].
  apply NoDup_cons in Hnd as [Hs Hnd]. simpl.
  destruct (cached now d s); [apply IH; exact Hnd|].
  apply NoDup_cons. split; [|apply IH; exact Hnd].
  intros Hin. apply Hs. apply list_elem_of_In.
  apply list_elem_of_In in Hin. eapply missed_sublist. exact Hin.
Qed.

(** X6: [main] asks the provider for a season at most once, in the order
    of the list, and only for the seasons that have no live cache entry
    when their turn comes; a season whose entry never expires is not asked
    for, and with no entry for any season every season is asked for once. *)
Theorem main_requests (provider : string -> result DataFrame)
  (seasons : list string) (w : world) :
  seasons <> [] ->
  NoDup seasons ->
  storage_ok w = true ->
  (forall s e, In s seasons -> provider s = Raise e -> is_Exception e = true) ->
  exists w' asked,
    main_on provider seasons w = (Ok tt, w') /\
    requests w' = requests w ++ asked /\
    asked = missed (disk w) (clock w) seasons /\
    NoDup asked /\
    (forall s, In s asked -> In s seasons) /\
    (forall s v, disk w !! s = Some (mkEntry v None) -> ~ In s asked) /\
    ((forall s, In s seasons -> disk w !! s = None) -> asked = seasons).
Proof.
  intros Hne Hnd Hok Hexn.
  destruct (main_on_accounting provider seasons w Hne Hnd Hok Hexn)
    as (w' & Hrun & _ & Hr).
  exists w', (missed (disk w) (clock w) seasons).
  split; [exact Hrun|]. split; [exact Hr|]. split; [reflexivity|].
  split; [apply missed_NoDup; exact Hnd|].
  split; [intros s; apply missed_sublist|].
  split; [|apply missed_cold].
  intros s v Hs. eapply missed_never_expires. exact Hs.
Qed.

Lemma main_requests_witness :
  exists w' asked,
    main example_provider (fresh_world 0 true) = (Ok tt, w') /\
    requests w' = asked /\
    asked = seasons.
Proof.
  destruct (main_requests example_provider seasons (fresh_world 0 true))
    as (w' & asked & Hrun & Hr & _ & _ & _ & _ & Hcold).
  - vm_compute. discriminate.
  - apply (bool_decide_unpack (NoDup seasons)). vm_compute. reflexivity.
  - reflexivity.
  - intros s e _. unfold example_provider.
    destruct (String.eqb s "2023-24"); [discriminate|].
    destruct (String.eqb s "2022-23"); [discriminate|].
    intros H. inversion H. reflexivity.
  - exists w', asked. split; [exact Hrun|]. split; [exact Hr|].
    apply Hcold. intros s _. reflexivity.
Defined.


(** ** What the cache remembers *)

(** X7: what a call computed on a miss, a table or the empty table of a
    failed fetch, is what every call for the same season returns while the
    clock is before the time of that call plus 3600 seconds, and such a
    call sends no request, whatever the provider would answer by then. *)
Theorem cache_remembers_results_and_failures
  (provider later_provider : string -> result DataFrame)
  (season : string) (w w2 : world) :
  storage_ok w = true ->
  (forall e, provider season = Raise e -> is_Exception e = true) ->
  cached (clock w) (disk w) season = None ->
  storage_ok w2 = true ->
  disk w2 !! season
  = disk (fetch_nba_team_stats provider season w).2 !! season ->
  (clock w2 <? clock w + 3600)%float = true ->
  exists w3,
    fetch_nba_team_stats later_provider season w2 = (Ok (next_ref w2), w3) /\
    heap w3 !! next_ref w2 = Some (fresh_table provider season) /\
    requests w3 = requests w2 /\
    (forall e, provider season = Raise e ->
               heap w3 !! next_ref w2 = Some empty_frame).
Proof.
  intros Hok Hexn Hmiss Hok2 Hdisk Hlive.
  assert (Hentry : disk w2 !! season
                   = Some (mkEntry (fresh_table provider season)
                                   (Some (clock w + 3600)%float))).
  { rewrite Hdisk, (fetch_run provider season w Hok), Hmiss.
    unfold fresh_table.
    destruct (provider season) as [data|e] eqn:Hp.
    - simpl. apply lookup_insert_eq.
    - rewrite (Hexn e eq_refl). simpl. apply lookup_insert_eq. }
  rewrite (fetch_run later_provider season w2 Hok2).
  unfold cached. rewrite Hentry. unfold live. simpl. rewrite Hlive.
  eexists. split; [reflexivity|]. simpl. rewrite lookup_insert_eq.
  split; [reflexivity|]. split; [reflexivity|].
  intros e He. unfold fresh_table. rewrite He. reflexivity.
Qed.

(** The provider is down at time 0 and back a quarter of an hour later:
    the second call still returns the empty table and asks nothing. *)
Lemma cache_remembers_results_and_failures_witness :
  let w1 := (fetch_nba_team_stats failing_provider "2023-24"
                                  (fresh_world 0 true)).2 in
  let w2 := (sleep 900 w1).2 in
  exists w3,
    fetch_nba_team_stats example_provider "2023-24" w2
    = (Ok (next_ref w2), w3) /\
    heap w3 !! next_ref w2 = Some empty_frame /\
    requests w3 = ["2023-24"].
Proof.
  intros w1 w2.
  destruct (cache_remembers_results_and_failures
              failing_provider example_provider "2023-24"
              (fresh_world 0 true) w2)
    as (w3 & Hrun & Hv & Hr & _).
  - reflexivity.
  - intros e H. inversion H. reflexivity.
  - vm_compute. reflexivity.
  - reflexivity.
  - vm_compute. reflexivity.
  - vm_compute. reflexivity.
  - exists w3. split; [exact Hrun|]. split; [exact Hv|].
    rewrite Hr. vm_compute. reflexivity.
Defined.

(** ** No table is published before the loop has ended *)

Lemma keeps_global_bind {A B} (m : M A) (k : A -> M B) :
  keeps_global m -> (forall a, keeps_global (k a)) -> keeps_global (bind m k).
Proof.
  intros Hm Hk w. unfold bind. specialize (Hm w).
  destruct (m w) as [[a|e] w1]; simpl in *; [|exact Hm].
  rewrite (Hk a w1). exact Hm.
Qed.

Lemma keeps_global_ret {A} (a : A) : keeps_global (ret a).
Proof. intros w. reflexivity. Qed.

Lemma keeps_global_emit (o : output) : keeps_global (emit o).
Proof. intros w. reflexivity. Qed.

Lemma keeps_global_deref (r : nat) : keeps_global (deref r).
Proof. intros w. unfold deref. destruct (heap w !! r); reflexivity. Qed.

Lemma keeps_global_update (r : nat) (f : DataFrame -> DataFrame) :
  keeps_global (update r f).
Proof. intros w. reflexivity. Qed.

Lemma keeps_global_sleep (d : float) : keeps_global (sleep d).
Proof. intros w. reflexivity. Qed.

Lemma keeps_global_alloc (df : DataFrame) : keeps_global (alloc df).
Proof. intros w. reflexivity. Qed.

Lemma keeps_global_fetch (provider : string -> result DataFrame)
  (season : string) : keeps_global (fetch_nba_team_stats provider season).
Proof.
  intros w. destruct (storage_ok w) eqn:Hok.
  - rewrite (fetch_run provider season w Hok).
    destruct (cached (clock w) (disk w) season); [reflexivity|].
    destruct (provider season) as [data|e]; [reflexivity|].
    destruct (is_Exception e); reflexivity.
  - rewrite (fetch_without_storage provider season w Hok). reflexivity.
Qed.

Lemma keeps_global_fetch_seasons (provider : string -> result DataFrame)
  (todo : list string) (acc : list nat) :
  keeps_global (fetch_seasons provider todo acc).
Proof.
  revert acc. induction todo as [|s todo IH]; intros acc.
  - apply keeps_global_ret.
  - simpl. apply keeps_global_bind; [apply keeps_global_emit|]. intros _.
    apply keeps_global_bind; [apply keeps_global_fetch|]. intros r.
    apply keeps_global_bind; [apply keeps_global_deref|]. intros df.
    apply keeps_global_bind.
    + destruct (df_empty df); [apply keeps_global_ret|].
      apply keeps_global_bind; [apply keeps_global_update|].
      intros _. apply keeps_global_ret.
    + intros acc'. apply keeps_global_bind; [apply keeps_global_sleep|].
      intros _. apply IH.
Qed.

Lemma keeps_global_deref_all (rs : list nat) : keeps_global (deref_all rs).
Proof.
  induction rs as [|r rs IH]; [apply keeps_global_ret|].
  simpl. apply keeps_global_bind; [apply keeps_global_deref|]. intros df.
  apply keeps_global_bind; [exact IH|]. intros dfs. apply keeps_global_ret.
Qed.

(** X8: [main] binds [combined_df] only once every season has been
    processed: if it stops on an exception (an interrupt during a fetch, a
    storage failure) the global is as it was before, however many seasons
    had been fetched, and the script ends with that exception instead of
    serving a partial table. *)
Theorem interrupted_main_publishes_nothing
  (provider : string -> result DataFrame) (seasons : list string)
  (w w' : world) (e : exn) :
  main_on provider seasons w = (Raise e, w') ->
  g_combined_df w' = g_combined_df w /\
  (storage_ok w = true -> script_on provider seasons w = (Raise e, w')).
Proof.
  intros Hrun. split.
  - revert Hrun. unfold main_on.
    destruct (head seasons) as [a|]; [|intros H; inversion H; reflexivity].
    destruct (last seasons) as [b|]; [|intros H; inversion H; reflexivity].
    unfold bind at 1, print, emit.
    set (wp := mkWorld _ _ _ _ _ _ _ _).
    pose proof (keeps_global_fetch_seasons provider seasons [] wp) as Hloop.
    unfold bind at 1.
    destruct (fetch_seasons provider seasons [] wp) as [[refs|e1] w1].
    + simpl in Hloop. destruct refs as [|r refs].
      * intros H. inversion H.
      * unfold bind at 1.
        pose proof (keeps_global_deref_all (r :: refs) w1) as Hd.
        destruct (deref_all (r :: refs) w1) as [[frames|e2] w2].
        -- simpl in Hd. unfold bind at 1, lift.
           destruct (concat_ignore_index frames) as [df|e3].
           ++ intros H. inversion H.
           ++ intros H. inversion H; subst. congruence.
        -- simpl in Hd. intros H. inversion H; subst. congruence.
    + simpl in Hloop. intros H. inversion H; subst. exact Hloop.
  - intros Hok. unfold script_on. unfold bind at 1, open_cache.
    rewrite Hok. unfold bind at 1. rewrite Hrun. reflexivity.
Qed.

(** The table of 2023-24 has been fetched when the interrupt comes. *)
Lemma interrupted_main_publishes_nothing_witness :
  let w := fresh_world 0 true in
  let w' := (main_on interrupted_provider ["2023-24"; "2022-23"] w).2 in
  main_on interrupted_provider ["2023-24"; "2022-23"] w
  = (Raise KeyboardInterrupt, w') /\
  (exists df, heap w' !! 0%nat = Some df /\ nrows df = 3%nat) /\
  g_combined_df w' = None /\
  script_on interrupted_provider ["2023-24"; "2022-23"] w
  = (Raise KeyboardInterrupt, w').
Proof.
  intros w w'.
  assert (Hrun : main_on interrupted_provider ["2023-24"; "2022-23"] w
                 = (Raise KeyboardInterrupt, w'))
    by (vm_compute; reflexivity).
  destruct (interrupted_main_publishes_nothing interrupted_provider
              ["2023-24"; "2022-23"] w w' KeyboardInterrupt Hrun)
    as [Hg Hs].
  split; [exact Hrun|].
  split; [eexists; split; vm_compute; reflexivity|].
  split; [exact Hg|]. apply Hs. reflexivity.
Defined.

(** ** The season dropdown *)

Lemma distinct_In (l : list string) (x : string) :
  In x (distinct l) <-> In x l.
Proof.
  induction l as [|k l IH]; [reflexivity|].
  simpl. rewrite filter_In, IH. split.
  - intros [H|[H _]]; auto.
  - intros [H|H]; [auto|].
    destruct (String.eqb_spec x k) as [->|Hne]; [auto|].
    right. split; [exact H|reflexivity].
Qed.












(** ** The order of the trend *)

Lemma ascending_insert (k : string) (l : list string) :
  ascending l = true -> ascending (insert_sorted k l) = true.
Proof.
  induction l as [|x l IH]; intros Hl; [reflexivity|].
  cbn [insert_sorted]. destruct (String.leb k x) eqn:Hkx.
  - cbn [ascending]. rewrite Hkx. exact Hl.
  - assert (Hxk : String.leb x k = true)
      by (destruct (String.leb_total k x) as [H|H]; congruence).
    destruct l as [|y l].
    + cbn [insert_sorted ascending]. rewrite Hxk. reflexivity.
    + cbn [ascending] in Hl. apply andb_true_iff in Hl as [Hxy Hl].
      specialize (IH Hl). cbn [insert_sorted] in *.
      destruct (String.leb k y) eqn:Hky.
      * cbn [ascending] in *. rewrite Hxk, Hky. exact Hl.
      * cbn [ascending] in *. rewrite Hxy. exact IH.
Qed.

Lemma ascending_sort (l : list string) : ascending (sort_strings l) = true.
Proof.
  induction l as [|k l IH]; [reflexivity|].
  simpl. apply ascending_insert. exact IH.
Qed.

Lemma insert_sorted_In (k x : string) (l : list string) :
  In x (insert_sorted k l) <-> x = k \/ In x l.
Proof.
  induction l as [|y l IH]; simpl; [intuition|].
  destruct (String.leb k y); simpl; [intuition|].
  rewrite IH. intuition.
Qed.

Lemma sort_strings_In (x : string) (l : list string) :
  In x (sort_strings l) <-> In x l.
Proof.
  induction l as [|k l IH]; [reflexivity|].
  simpl. rewrite insert_sorted_In, IH. intuition.
Qed.

Lemma insert_sorted_NoDup (k : string) (l : list string) :
  ~ In k l -> NoDup l -> NoDup (insert_sorted k l).
Proof.
  induction l as [|y l IH]; intros Hk Hnd; simpl.
  - apply NoDup_cons. split; [intros H; inversion H|constructor].
  - destruct (String.leb k y).
    + apply NoDup_cons. split; [|exact Hnd].
      intros H. apply Hk. apply list_elem_of_In. exact H.
    + apply NoDup_cons in Hnd as [Hy Hnd]. apply NoDup_cons. split.
      * intros H. apply list_elem_of_In, insert_sorted_In in H.
        destruct H as [->|H]; [apply Hk; left; reflexivity|].
        apply Hy. apply list_elem_of_In. exact H.
      * apply IH; [|exact Hnd]. intros H. apply Hk. right. exact H.
Qed.

Lemma sort_strings_NoDup (l : list string) :
  NoDup l -> NoDup (sort_strings l).
Proof.
  induction l as [|k l IH]; intros Hnd; [constructor|].
  apply NoDup_cons in Hnd as [Hk Hnd]. simpl.
  apply insert_sorted_NoDup; [|apply IH; exact Hnd].
  intros H. apply Hk. apply list_elem_of_In.
  apply sort_strings_In. exact H.
Qed.

Lemma NoDup_bool_filter {A} (f : A -> bool) (l : list A) :
  NoDup l -> NoDup (List.filter f l).
Proof.
  induction l as [|x l IH]; intros Hnd; [constructor|].
  apply NoDup_cons in Hnd as [Hx Hnd]. simpl.
  destruct (f x); [|apply IH; exact Hnd].
  apply NoDup_cons. split; [|apply IH; exact Hnd].
  intros H. apply Hx. apply list_elem_of_In.
  apply list_elem_of_In, filter_In in H as [H _]. exact H.
Qed.

Lemma distinct_NoDup (l : list string) : NoDup (distinct l).
Proof.
  induction l as [|k l IH]; [constructor|].
  simpl. apply NoDup_cons. split.
  - intros H. apply list_elem_of_In, filter_In in H as [_ H].
    rewrite String.eqb_refl in H. discriminate.
  - apply NoDup_bool_filter. exact IH.
Qed.

Lemma map_fst_insert_by_key {A} (e : string * A) (l : list (string * A)) :
  List.map fst (insert_by_key e l) = insert_sorted e.1 (List.map fst l).
Proof.
  induction l as [|x l IH]; [reflexivity|].
  simpl. destruct (String.leb e.1 x.1); simpl; [reflexivity|].
  rewrite IH. reflexivity.
Qed.

Lemma map_fst_sort_by_key {A} (l : list (string * A)) :
  List.map fst (sort_by_key l) = sort_strings (List.map fst l).
Proof.
  induction l as [|x l IH]; [reflexivity|].
  simpl. rewrite map_fst_insert_by_key, IH. reflexivity.
Qed.

Lemma agg_groups_keys (f : Series -> result cell) (key_col col : Series)
  (keys : list string) (l : list (string * cell)) :
  agg_groups f key_col col keys = Ok l -> List.map fst l = keys.
Proof.
  revert l. induction keys as [|k keys IH]; intros l H; simpl in H.
  - inversion H. reflexivity.
  - destruct (f (group_of key_col col k)) as [v|]; [|discriminate].
    destruct (agg_groups f key_col col keys) as [l'|]; [|discriminate].
    inversion H. simpl. rewrite (IH l' eq_refl). reflexivity.
Qed.

Lemma omap_cell_str_In (s : string) (vs : list cell) :
  In s (omap cell_str vs) <-> In (CStr s) vs.
Proof.
  induction vs as [|v vs IH]; [reflexivity|].
  destruct v as [z|f|t]; simpl; rewrite ?IH.
  - split; [auto|]. intros [H|H]; [discriminate|exact H].
  - split; [auto|]. intros [H|H]; [discriminate|exact H].
  - split; intros [H|H]; auto; left; congruence.
Qed.

Lemma season_avg_keys (df : DataFrame) (key_col : Series)
  (avg : list (string * cell)) :
  getitem df "season" = Ok key_col ->
  season_avg df = Ok avg ->
  List.map fst avg = sort_strings (group_keys key_col).
Proof.
  intros Hk. unfold season_avg. rewrite Hk.
  destruct (getitem df "fg3a") as [col|]; [|discriminate].
  destruct (agg_groups (fg3a_per_g df) key_col col (group_keys key_col))
    as [l|] eqn:Hl; [|discriminate].
  intros H. inversion H. rewrite map_fst_sort_by_key.
  rewrite (agg_groups_keys _ _ _ _ _ Hl). reflexivity.
Qed.

(** X10: when the league trend can be computed, its chart has one point
    for each season that occurs in the combined table and no other, and
    the points come in ascending order of the season identifier, the
    reverse of the order in which [main] fetched the seasons. *)
Theorem trend_has_one_point_per_season_ascending (sel : string) (w : world)
  (r : nat) (df : DataFrame) (key_col : Series)
  (avg : list (string * cell)) :
  g_combined_df w = Some (PyFrame r) ->
  heap w !! r = Some df ->
  getitem df "season" = Ok key_col ->
  season_avg df = Ok avg ->
  exists fig,
    (update_threes_trend sel w).1 = Ok fig /\
    fig_x fig = List.map (fun s => CStr s) (List.map fst avg) /\
    length (fig_y fig) = length (fig_x fig) /\
    ascending (List.map fst avg) = true /\
    NoDup (List.map fst avg) /\
    (forall s, In s (List.map fst avg) <-> In (CStr s) (s_values key_col)).
Proof.
  intros Hg Hr Hk Havg.
  eexists. split.
  { rewrite (trend_result sel w r df Hg Hr), Havg. reflexivity. }
  simpl. rewrite (season_avg_keys df key_col avg Hk Havg).
  split; [rewrite <- (season_avg_keys df key_col avg Hk Havg);
          rewrite List.map_map; reflexivity|].
  split; [rewrite !List.length_map; reflexivity|].
  split; [apply ascending_sort|].
  unfold group_keys. split.
  - apply sort_strings_NoDup, sort_strings_NoDup, distinct_NoDup.
  - intros s. rewrite !sort_strings_In, distinct_In.
    apply omap_cell_str_In.
Qed.

(** Fetched as 2023-24, 2022-23; charted as 2022-23, 2023-24. *)
Lemma trend_has_one_point_per_season_ascending_witness :
  exists fig,
    (update_threes_trend "2023-24" full_world).1 = Ok fig /\
    fig_x fig = [CStr "2022-23"; CStr "2023-24"] /\
    length (fig_y fig) = 2%nat.
Proof.
  destruct (trend_has_one_point_per_season_ascending "2023-24" full_world 2
              full_table (result_or [] (getitem full_table "season"))
              (result_or [] (season_avg full_table)))
    as (fig & Hrun & Hx & Hy & _).
  - reflexivity.
  - reflexivity.
  - vm_compute. reflexivity.
  - vm_compute. reflexivity.
  - exists fig. split; [exact Hrun|].
    assert (Hx' : fig_x fig = [CStr "2022-23"; CStr "2023-24"])
      by (rewrite Hx; vm_compute; reflexivity).
    split; [exact Hx'|]. rewrite Hy, Hx'. reflexivity.
Defined.

(** ** Column labels after a fetch *)






(** ** The layout of the combined table *)








(** ** The export *)



(** ** The trend of a season without games *)

Lemma insert_by_key_In {A} (e x : string * A) (l : list (string * A)) :
  In x (insert_by_key e l) <-> x = e \/ In x l.
Proof.
  induction l as [|y l IH]; simpl; [intuition|].
  destruct (String.leb e.1 y.1); simpl; [intuition|].
  rewrite IH. intuition.
Qed.

Lemma sort_by_key_In {A} (x : string * A) (l : list (string * A)) :
  In x (sort_by_key l) <-> In x l.
Proof.
  induction l as [|e l IH]; [reflexivity|].
  simpl. rewrite insert_by_key_In, IH. intuition.
Qed.

Lemma spec_rates_In (df : DataFrame) (key_col col : Series)
  (keys : list string) (l : list (string * cell)) (k : string) (v : cell) :
  spec_rates df key_col col keys = Ok l ->
  In (k, v) l ->
  spec_rate_of_season df key_col col k = Ok v.
Proof.
  revert l. induction keys as [|k0 keys IH]; intros l H Hin; simpl in H.
  - inversion H; subst. destruct Hin.
  - destruct (spec_rate_of_season df key_col col k0) as [v0|] eqn:Hv0;
      [|discriminate].
    destruct (spec_rates df key_col col keys) as [l'|]; [|discriminate].
    inversion H; subst. destruct Hin as [Heq|Hin].
    + inversion Heq; subst. exact Hv0.
    + apply (IH l' eq_refl Hin).
Qed.

(** X15: the league trend divides without a guard as well: in a combined
    table, a season whose rows add up to zero games played is charted with
    NaN or an infinity as its rate. *)
Theorem trend_of_a_season_without_games (frames : list DataFrame)
  (df : DataFrame) (key_col games : Series) (avg : list (string * cell))
  (k : string) (v : cell) :
  concat_ignore_index frames = Ok df ->
  getitem df "season" = Ok key_col ->
  getitem df "gp" = Ok games ->
  series_sum (group_of key_col games k) = Ok (CInt 0) ->
  season_avg df = Ok avg ->
  In (k, v) avg ->
  exists x, v = CFloat x /\ nan_or_infinite x.
Proof.
  intros Hcat Hk Hg Hzero Havg Hin.
  rewrite (season_avg_spec df (concat_index_NoDup frames df Hcat)) in Havg.
  unfold spec_league_trend in Havg. rewrite Hk in Havg.
  destruct (getitem df "fg3a") as [col|]; [|discriminate].
  destruct (spec_rates df key_col col (group_keys key_col)) as [l|] eqn:Hl;
    [|discriminate].
  injection Havg as <-. apply (proj1 (sort_by_key_In _ _)) in Hin.
  pose proof (spec_rates_In df key_col col _ l k v Hl Hin) as Hv.
  unfold spec_rate_of_season in Hv. rewrite Hg, Hzero in Hv.
  destruct (series_sum (group_of key_col col k)) as [a|]; [|discriminate].
  unfold cell_div in Hv. destruct (to_float a) as [x|]; [|discriminate].
  simpl in Hv. inversion Hv.
  exists (x / 0)%float. split; [reflexivity|]. apply float_div_zero.
Qed.

(** A season before its first game: every team has played zero games. *)
Lemma trend_of_a_season_without_games_witness :
  let df := mkDF ["team_name"; "gp"; "fg3a"; "season"]
                 [(0, [CStr "A"; CInt 0; CInt 0; CStr "2024-25"]);
                  (1, [CStr "B"; CInt 0; CInt 0; CStr "2024-25"])] in
  season_avg df = Ok [("2024-25", CFloat nan)] /\
  exists x, CFloat nan = CFloat x /\ nan_or_infinite x.
Proof.
  intros df. split; [vm_compute; reflexivity|].
  apply (trend_of_a_season_without_games [df] df
           (result_or [] (getitem df "season"))
           (result_or [] (getitem df "gp"))
           [("2024-25", CFloat nan)] "2024-25" (CFloat nan)).
  - reflexivity.
  - reflexivity.
  - reflexivity.
  - vm_compute. reflexivity.
  - vm_compute. reflexivity.
  - left. reflexivity.
Defined.
